(** * CyMouse receiver: a shallow embedding of [src/main.cpp]

    The firmware has three execution contexts: the ESP-NOW receive callback
    [OnDataRecv], the consumer task [mouseTask] and the Arduino [loop].  Each
    of them is embedded as a function on an explicit record of the global
    variables, written in a small state-and-trace monad; calls into the radio,
    the USB HID mouse and the serial console are recorded, in program order,
    as events of the trace.  Values returned by the environment ([millis()],
    the [esp_err_t] results of the peer table calls) are arguments of the
    embedded functions, so every theorem quantifies over them.

    The embedded functions run one callback invocation, one iteration of the
    [for (;;)] body of [mouseTask] and one pass through [loop] from start to
    end.  Since [mouseTask] and [loop] are separate tasks on the same
    globals, the file also gives a system in which the three contexts advance
    statement by statement in any order; the invariant of the connection
    state is proved on that system. *)

From Stdlib Require Import ZArith List Bool Lia String Ascii.
Import ListNotations.
Open Scope Z_scope.

(** ** Machine integers *)

(** [uint8_t], [unsigned long] (32 bits on the ESP32) and the signed readings
    of one and two little-endian bytes. *)
Definition to_uint8 (z : Z) : Z := z mod 256.
Definition to_uint32 (z : Z) : Z := z mod 2 ^ 32.
Definition to_int8 (z : Z) : Z :=
  let u := z mod 256 in if u <? 128 then u else u - 256.
Definition to_int16 (z : Z) : Z :=
  let u := z mod 65536 in if u <? 32768 then u else u - 65536.

Definition is_uint8 (z : Z) : Prop := 0 <= z < 256.
Definition is_uint32 (z : Z) : Prop := 0 <= z < 2 ^ 32.
Definition is_int8 (z : Z) : Prop := -128 <= z < 128.
Definition is_int16 (z : Z) : Prop := -32768 <= z < 32768.

(** ** Configuration (lines 18-21) *)

Definition WIFI_CHANNEL : Z := 13.
Definition CONNECTION_TIMEOUT : Z := 3000.
Definition MY_DEVICE_NAME : string := "CyMouseReceiver_V1".
Definition broadcastAddress : list Z := [255; 255; 255; 255; 255; 255].

(** ** Data structures (lines 24-48) *)

(** [PacketType] is a C enum; a value read from the wire can be any 32-bit
    integer, so it is kept as a number with the three named constants. *)
Definition PacketType : Type := Z.
Definition PACKET_TYPE_DISCOVERY : PacketType := 0.
Definition PACKET_TYPE_MOUSE_DATA : PacketType := 1.
Definition PACKET_TYPE_HEARTBEAT : PacketType := 2.

Module UniversalPacket.
Record t : Type := mk {
  type : PacketType;
  deviceName : list Z;       (* char[32] *)
  deltaX : Z;                (* int16_t *)
  deltaY : Z;                (* int16_t *)
  wheel : Z;                 (* int8_t *)
  buttons : Z                (* uint8_t *)
}.
End UniversalPacket.

Module QueueItem_t.
Record t : Type := mk {
  mac_addr : list Z;         (* uint8_t[6] *)
  type : PacketType;
  deltaX : Z;                (* int16_t *)
  deltaY : Z;                (* int16_t *)
  wheel : Z;                 (* int8_t *)
  buttons : Z                (* uint8_t *)
}.
End QueueItem_t.

(** The packed layout of [UniversalPacket] on the ESP32 (little-endian, enum
    of four bytes): tag at 0, name at 4, deltaX at 36, deltaY at 38, wheel at
    40, buttons at 41. *)
Definition sizeof_PacketType : Z := 4.
Definition sizeof_UniversalPacket : Z := sizeof_PacketType + 32 + 2 + 2 + 1 + 1.

Definition byte_at (data : list Z) (i : nat) : Z := nth i data 0.

Definition le_bytes (data : list Z) (off n : nat) : Z :=
  fold_right (fun b acc => b + 256 * acc) 0 (firstn n (skipn off data)).

(** What the fields of [(UniversalPacket* )data] read. *)
Definition packet_of_bytes (data : list Z) : UniversalPacket.t :=
  UniversalPacket.mk
    (le_bytes data 0 4)
    (firstn 32 (skipn 4 data))
    (to_int16 (le_bytes data 36 2))
    (to_int16 (le_bytes data 38 2))
    (to_int8 (byte_at data 40))
    (byte_at data 41).

Fixpoint bytes_le (n : nat) (z : Z) : list Z :=
  match n with
  | O => []
  | S k => z mod 256 :: bytes_le k (z / 256)
  end.

(** The bytes of a packet object, as [esp_now_send] reads them. *)
Definition bytes_of_packet (p : UniversalPacket.t) : list Z :=
  bytes_le 4 (UniversalPacket.type p)
  ++ firstn 32 (UniversalPacket.deviceName p ++ repeat 0 32)
  ++ bytes_le 2 (UniversalPacket.deltaX p)
  ++ bytes_le 2 (UniversalPacket.deltaY p)
  ++ bytes_le 1 (UniversalPacket.wheel p)
  ++ bytes_le 1 (UniversalPacket.buttons p).

(** [memcpy], [memset] and [strcpy] on arrays as lists of bytes. *)
Definition memcpy (dst src : list Z) (n : nat) : list Z :=
  firstn n src ++ skipn n dst.
Definition memset (dst : list Z) (c : Z) (n : nat) : list Z :=
  repeat c n ++ skipn n dst.
Definition c_string (s : string) : list Z :=
  map (fun a => Z.of_nat (nat_of_ascii a)) (list_ascii_of_string s) ++ [0].
Definition strcpy (dst : list Z) (s : string) : list Z :=
  c_string s ++ skipn (List.length (c_string s)) dst.

(** ** The outside world *)

Inductive esp_err_t : Type :=
| ESP_OK
| ESP_ERR_ESPNOW_NOT_FOUND
| ESP_ERR_OTHER.

Inductive wifi_interface_t : Type := WIFI_IF_STA | WIFI_IF_AP.

Record esp_now_peer_info_t : Type := mk_peer {
  peer_addr : list Z;
  channel : Z;
  encrypt : bool;
  ifidx : wifi_interface_t
}.

(** The five button identifiers of [USBHIDMouse.h]. *)
Inductive Button : Type :=
| MOUSE_LEFT | MOUSE_RIGHT | MOUSE_MIDDLE | MOUSE_BACKWARD | MOUSE_FORWARD.

(** The messages written to the serial console; [LogFirstPacket] stands for
    lines 98-103, which print the sender address byte by byte. *)
Inductive SerialLine : Type :=
| LogFirstPacket (mac : list Z)
| LogPeerUpdated
| LogPeerWarning
| LogPeerAdded
| LogTimeoutReset
| LogPeerDeleted
| LogPeerNotFound
| LogPeerDeleteFailed
| LogBackToBroadcast
| LogSeparator
| LogBroadcasting.

Inductive Event : Type :=
| Serial_println (l : SerialLine)
| esp_now_add_peer (p : esp_now_peer_info_t)
| esp_now_mod_peer (p : esp_now_peer_info_t)
| esp_now_del_peer (mac : list Z)
| esp_now_send (dst : list Z) (data : list Z) (len : Z)
| Mouse_move (x y w : Z)
| Mouse_press (b : Button)
| Mouse_release (b : Button).

(** ** Global variables (lines 51-55) and the two function-local variables
    that outlive a call: [lastButtons] of [mouseTask] (line 85) and the
    static [lastBroadcastTime] of [loop] (line 279). *)
Record State : Type := mkState {
  mouseDataQueue : list QueueItem_t.t;
  isConnected : bool;
  lastPacketTime : Z;
  peerMacAddress : list Z;
  lastButtons : Z;
  lastBroadcastTime : Z
}.

Definition QUEUE_LENGTH : nat := 20.

Definition initial_state : State :=
  mkState [] false 0 (repeat 0 6) 0 0.

Definition set_queue (q : list QueueItem_t.t) (s : State) : State :=
  mkState q (isConnected s) (lastPacketTime s) (peerMacAddress s)
          (lastButtons s) (lastBroadcastTime s).
Definition set_isConnected (b : bool) (s : State) : State :=
  mkState (mouseDataQueue s) b (lastPacketTime s) (peerMacAddress s)
          (lastButtons s) (lastBroadcastTime s).
Definition set_lastPacketTime (t : Z) (s : State) : State :=
  mkState (mouseDataQueue s) (isConnected s) t (peerMacAddress s)
          (lastButtons s) (lastBroadcastTime s).
Definition set_peerMacAddress (m : list Z) (s : State) : State :=
  mkState (mouseDataQueue s) (isConnected s) (lastPacketTime s) m
          (lastButtons s) (lastBroadcastTime s).
Definition set_lastButtons (b : Z) (s : State) : State :=
  mkState (mouseDataQueue s) (isConnected s) (lastPacketTime s)
          (peerMacAddress s) b (lastBroadcastTime s).
Definition set_lastBroadcastTime (t : Z) (s : State) : State :=
  mkState (mouseDataQueue s) (isConnected s) (lastPacketTime s)
          (peerMacAddress s) (lastButtons s) t.

(** ** The state-and-trace monad *)

Definition M (A : Type) : Type := State -> A * State * list Event.

Definition ret {A} (a : A) : M A := fun s => (a, s, []).
Definition bind {A B} (m : M A) (k : A -> M B) : M B :=
  fun s =>
    let '(a, s1, t1) := m s in
    let '(b, s2, t2) := k a s1 in
    (b, s2, t1 ++ t2).
Definition get {A} (f : State -> A) : M A := fun s => (f s, s, []).
Definition modify (f : State -> State) : M unit := fun s => (tt, f s, []).
Definition emit (e : Event) : M unit := fun s => (tt, s, [e]).
(** A call into the environment that answers [r]. *)
Definition call {A} (e : Event) (r : A) : M A := fun s => (r, s, [e]).
Definition when (b : bool) (m : M unit) : M unit := if b then m else ret tt.

Declare Scope m_scope.
Delimit Scope m_scope with M.
Notation "x <- m ;; k" := (bind m (fun x => k))
  (at level 61, m at next level, right associativity) : m_scope.
Notation "m ;; k" := (bind m (fun _ => k))
  (at level 61, right associativity) : m_scope.
Open Scope m_scope.

Definition state_of {A} (r : A * State * list Event) : State := snd (fst r).
Definition trace_of {A} (r : A * State * list Event) : list Event := snd r.

(** ** [OnDataRecv] (lines 60-79) *)

(** [xQueueSendFromISR]: appends unless the queue is full; the result is
    ignored by the caller. *)
Definition xQueueSendFromISR (item : QueueItem_t.t) : M unit :=
  modify (fun s =>
    if (List.length (mouseDataQueue s) <? QUEUE_LENGTH)%nat
    then set_queue (mouseDataQueue s ++ [item]) s
    else s).

(** The item built at lines 69-75, when the two tests let the frame pass. *)
Definition OnDataRecv_item (mac_addr data : list Z) (data_len : Z)
  : option QueueItem_t.t :=
  if negb (data_len =? sizeof_UniversalPacket) then None
  else
    let packet := packet_of_bytes data in
    if (UniversalPacket.type packet =? PACKET_TYPE_MOUSE_DATA)
       || (UniversalPacket.type packet =? PACKET_TYPE_HEARTBEAT)
    then Some (QueueItem_t.mk
                 (memcpy (repeat 0 6) mac_addr 6)
                 (UniversalPacket.type packet)
                 (UniversalPacket.deltaX packet)
                 (UniversalPacket.deltaY packet)
                 (UniversalPacket.wheel packet)
                 (UniversalPacket.buttons packet))
    else None.

Definition OnDataRecv (mac_addr data : list Z) (data_len : Z) : M unit :=
  match OnDataRecv_item mac_addr data data_len with
  | Some item => xQueueSendFromISR item
  | None => ret tt
  end.

(** A frame passes the two tests of the callback: its length is the size of
    the packed struct and its tag is one of the two consumed kinds. *)
Definition frame_accepted (data : list Z) (data_len : Z) : Prop :=
  data_len = sizeof_UniversalPacket /\
  (UniversalPacket.type (packet_of_bytes data) = PACKET_TYPE_MOUSE_DATA \/
   UniversalPacket.type (packet_of_bytes data) = PACKET_TYPE_HEARTBEAT).

(** The entry copied from a frame (lines 70-75). *)
Definition item_of_frame (mac_addr data : list Z) : QueueItem_t.t :=
  QueueItem_t.mk
    (memcpy (repeat 0 6) mac_addr 6)
    (UniversalPacket.type (packet_of_bytes data))
    (UniversalPacket.deltaX (packet_of_bytes data))
    (UniversalPacket.deltaY (packet_of_bytes data))
    (UniversalPacket.wheel (packet_of_bytes data))
    (UniversalPacket.buttons (packet_of_bytes data)).

(** ** [mouseTask] (lines 83-147): one iteration of the loop body, after
    [xQueueReceive] delivered [receivedItem]. *)

Definition connect (add_ret mod_ret : esp_err_t) (receivedItem : QueueItem_t.t)
  : M unit :=
  emit (Serial_println (LogFirstPacket (QueueItem_t.mac_addr receivedItem))) ;;
  modify (fun s => set_peerMacAddress
            (memcpy (peerMacAddress s) (QueueItem_t.mac_addr receivedItem) 6) s) ;;
  peer <- get peerMacAddress ;;
  let peerInfo :=
    mk_peer (memcpy (repeat 0 6) peer 6) WIFI_CHANNEL false WIFI_IF_STA in
  r <- call (esp_now_add_peer peerInfo) add_ret ;;
  match r with
  | ESP_OK => emit (Serial_println LogPeerAdded)
  | _ =>
      r' <- call (esp_now_mod_peer peerInfo) mod_ret ;;
      match r' with
      | ESP_OK => emit (Serial_println LogPeerUpdated)
      | _ => emit (Serial_println LogPeerWarning)
      end
  end ;;
  modify (set_isConnected true).

Definition button_action (changed_buttons buttons mask : Z) (b : Button)
  : M unit :=
  when (negb (Z.land changed_buttons mask =? 0))
       (if negb (Z.land buttons mask =? 0)
        then emit (Mouse_press b) else emit (Mouse_release b)).

Definition handle_mouse_data (receivedItem : QueueItem_t.t) : M unit :=
  let dx := QueueItem_t.deltaX receivedItem in
  let dy := QueueItem_t.deltaY receivedItem in
  let w := QueueItem_t.wheel receivedItem in
  let buttons := QueueItem_t.buttons receivedItem in
  when (negb (dx =? 0) || negb (dy =? 0) || negb (w =? 0))
       (emit (Mouse_move dx dy w)) ;;
  last <- get lastButtons ;;
  when (negb (buttons =? last))
       (let changed_buttons := to_uint8 (Z.lxor buttons last) in
        button_action changed_buttons buttons 0x01 MOUSE_LEFT ;;
        button_action changed_buttons buttons 0x02 MOUSE_RIGHT ;;
        button_action changed_buttons buttons 0x04 MOUSE_MIDDLE ;;
        button_action changed_buttons buttons 0x08 MOUSE_BACKWARD ;;
        button_action changed_buttons buttons 0x10 MOUSE_FORWARD ;;
        modify (set_lastButtons buttons)).

(** Lines 127-144, the part after the connect block. *)
Definition dispatch (receivedItem : QueueItem_t.t) : M unit :=
  when (QueueItem_t.type receivedItem =? PACKET_TYPE_MOUSE_DATA)
       (handle_mouse_data receivedItem).

(** Lines 97-144, everything after the refresh of [lastPacketTime]. *)
Definition after_refresh (add_ret mod_ret : esp_err_t)
  (receivedItem : QueueItem_t.t) : M unit :=
  connected <- get isConnected ;;
  when (negb connected) (connect add_ret mod_ret receivedItem) ;;
  dispatch receivedItem.

(** Lines 93-144; [now] is what [millis()] returns at line 93. *)
Definition mouseTask_body (now : Z) (add_ret mod_ret : esp_err_t)
  (receivedItem : QueueItem_t.t) : M unit :=
  modify (set_lastPacketTime now) ;;
  after_refresh add_ret mod_ret receivedItem.

(** [xQueueReceive] with [portMAX_DELAY]: the task is blocked ([None]) while
    the queue is empty, otherwise the head is removed and processed. *)
Definition mouseTask_iteration (now : Z) (add_ret mod_ret : esp_err_t)
  (s : State) : option (unit * State * list Event) :=
  match mouseDataQueue s with
  | [] => None
  | receivedItem :: rest =>
      Some (mouseTask_body now add_ret mod_ret receivedItem (set_queue rest s))
  end.

(** ** [resetConnection] (lines 219-234) and [loop] (lines 276-298) *)

Definition resetConnection (del_ret : esp_err_t) : M unit :=
  emit (Serial_println LogTimeoutReset) ;;
  peer <- get peerMacAddress ;;
  result <- call (esp_now_del_peer peer) del_ret ;;
  match result with
  | ESP_OK => emit (Serial_println LogPeerDeleted)
  | ESP_ERR_ESPNOW_NOT_FOUND => emit (Serial_println LogPeerNotFound)
  | ESP_ERR_OTHER => emit (Serial_println LogPeerDeleteFailed)
  end ;;
  modify (set_isConnected false) ;;
  modify (fun s => set_peerMacAddress (memset (peerMacAddress s) 0 6) s) ;;
  emit (Serial_println LogBackToBroadcast) ;;
  emit (Serial_println LogSeparator).

Definition discoveryPacket : UniversalPacket.t :=
  UniversalPacket.mk PACKET_TYPE_DISCOVERY
                     (strcpy (repeat 0 32) MY_DEVICE_NAME) 0 0 0 0.

(** [now] is the value of the first [millis()] of the pass (line 280 or line
    292), [now'] the value of the second one at line 281.  The [delay(100)]
    that ends the pass only spaces the passes in time. *)
Definition loop (now now' : Z) (del_ret : esp_err_t) : M unit :=
  connected <- get isConnected ;;
  if negb connected then
    lastBroadcast <- get lastBroadcastTime ;;
    when (to_uint32 (now - lastBroadcast) >=? 1000)
         (modify (set_lastBroadcastTime now') ;;
          emit (esp_now_send broadcastAddress (bytes_of_packet discoveryPacket)
                             sizeof_UniversalPacket) ;;
          emit (Serial_println LogBroadcasting))
  else
    lastPacket <- get lastPacketTime ;;
    when (to_uint32 (now - lastPacket) >? CONNECTION_TIMEOUT)
         (resetConnection del_ret).

(** ** The system as a transition system *)

(** The atomic operations: a frame handed to the callback, one iteration of
    the consumer task, one pass of [loop]; each carries what the environment
    supplies to it. *)
Inductive Op : Type :=
| RecvFrame (mac_addr data : list Z) (data_len : Z)
| TaskIteration (now : Z) (add_ret mod_ret : esp_err_t)
| LoopPass (now now' : Z) (del_ret : esp_err_t).

Definition outcome {A} (r : A * State * list Event) : State * list Event :=
  (state_of r, trace_of r).

(** [None]: the operation cannot run (the task is blocked on the queue). *)
Definition exec (op : Op) (s : State) : option (State * list Event) :=
  match op with
  | RecvFrame mac_addr data data_len =>
      Some (outcome (OnDataRecv mac_addr data data_len s))
  | TaskIteration now add_ret mod_ret =>
      option_map outcome (mouseTask_iteration now add_ret mod_ret s)
  | LoopPass now now' del_ret =>
      Some (outcome (loop now now' del_ret s))
  end.

Fixpoint run (ops : list Op) (s : State) : option (State * list Event) :=
  match ops with
  | [] => Some (s, [])
  | op :: ops' =>
      match exec op s with
      | None => None
      | Some (s1, t1) =>
          match run ops' s1 with
          | None => None
          | Some (s2, t2) => Some (s2, t1 ++ t2)
          end
      end
  end.

(** ** The three contexts interleaved

    [mouseTask] is a task of its own, of the highest priority (line 271), and
    works on the same unguarded globals (lines 53-55) as [loop], so a
    statement of one can run between two statements of the other.  In the
    system below each context advances by one statement at a time; a control
    point records how far the current iteration or pass has come.  A
    statement (an assignment, a test, a [memcpy], a [memset], a library
    call) is one step. *)

(** Where [mouseTask] stands. *)
Inductive TaskPc : Type :=
| TaskBlocked                                      (* in xQueueReceive, l.90 *)
| TaskReceived (receivedItem : QueueItem_t.t)      (* before l.93 *)
| TaskRefreshed (receivedItem : QueueItem_t.t)     (* before the test of l.97 *)
| TaskConnecting (receivedItem : QueueItem_t.t)    (* before l.98-106 *)
| TaskPeerStored (receivedItem : QueueItem_t.t)    (* before l.108-123 *)
| TaskPeerRegistered (receivedItem : QueueItem_t.t) (* before l.124 *)
| TaskDispatching (receivedItem : QueueItem_t.t).  (* before l.128 *)

(** Where [loop] stands. *)
Inductive LoopPc : Type :=
| LoopIdle              (* between two passes *)
| LoopConnected         (* l.278 saw isConnected; before the test of l.292 *)
| LoopResetting         (* in resetConnection, before l.220-229 *)
| LoopPeerRemoved       (* before l.230 *)
| LoopFlagCleared.      (* before l.231 *)

(** Lines 108-123: the peer entry is filled from [peerMacAddress] as it is
    when the statement runs. *)
Definition register_trace (add_ret mod_ret : esp_err_t) (peer : list Z)
  : list Event :=
  let peerInfo :=
    mk_peer (memcpy (repeat 0 6) peer 6) WIFI_CHANNEL false WIFI_IF_STA in
  esp_now_add_peer peerInfo
  :: match add_ret with
     | ESP_OK => [Serial_println LogPeerAdded]
     | _ => [esp_now_mod_peer peerInfo;
             Serial_println (match mod_ret with
                             | ESP_OK => LogPeerUpdated
                             | _ => LogPeerWarning
                             end)]
     end.

(** One statement of [mouseTask]; [None] while it is blocked on the empty
    queue. *)
Definition task_step (now : Z) (add_ret mod_ret : esp_err_t)
  (g : State) (pc : TaskPc) : option (TaskPc * State * list Event) :=
  match pc with
  | TaskBlocked =>
      match mouseDataQueue g with
      | [] => None
      | receivedItem :: rest =>
          Some (TaskReceived receivedItem, set_queue rest g, [])
      end
  | TaskReceived it =>
      Some (TaskRefreshed it, set_lastPacketTime now g, [])
  | TaskRefreshed it =>
      Some (if isConnected g then TaskDispatching it else TaskConnecting it,
            g, [])
  | TaskConnecting it =>
      Some (TaskPeerStored it,
            set_peerMacAddress
              (memcpy (peerMacAddress g) (QueueItem_t.mac_addr it) 6) g,
            [Serial_println (LogFirstPacket (QueueItem_t.mac_addr it))])
  | TaskPeerStored it =>
      Some (TaskPeerRegistered it, g,
            register_trace add_ret mod_ret (peerMacAddress g))
  | TaskPeerRegistered it =>
      Some (TaskDispatching it, set_isConnected true g, [])
  | TaskDispatching it =>
      Some (TaskBlocked, state_of (dispatch it g), trace_of (dispatch it g))
  end.

(** One statement of [loop].  The branch taken while Disconnected (lines
    279-289) works on the function's own static only and is one step. *)
Definition loop_step (now now' : Z) (del_ret : esp_err_t)
  (g : State) (pc : LoopPc) : LoopPc * State * list Event :=
  match pc with
  | LoopIdle =>
      if isConnected g then (LoopConnected, g, [])
      else (LoopIdle, state_of (loop now now' del_ret g),
            trace_of (loop now now' del_ret g))
  | LoopConnected =>
      if to_uint32 (now - lastPacketTime g) >? CONNECTION_TIMEOUT
      then (LoopResetting, g, [])
      else (LoopIdle, g, [])
  | LoopResetting =>
      (LoopPeerRemoved, g,
       [Serial_println LogTimeoutReset;
        esp_now_del_peer (peerMacAddress g);
        Serial_println (match del_ret with
                        | ESP_OK => LogPeerDeleted
                        | ESP_ERR_ESPNOW_NOT_FOUND => LogPeerNotFound
                        | ESP_ERR_OTHER => LogPeerDeleteFailed
                        end)])
  | LoopPeerRemoved =>
      (LoopFlagCleared, set_isConnected false g, [])
  | LoopFlagCleared =>
      (LoopIdle, set_peerMacAddress (memset (peerMacAddress g) 0 6) g,
       [Serial_println LogBackToBroadcast; Serial_println LogSeparator])
  end.

Record Sys : Type := mkSys {
  globals : State;
  task_pc : TaskPc;
  loop_pc : LoopPc
}.

Definition initial_sys : Sys := mkSys initial_state TaskBlocked LoopIdle.

(** Which context advances, with what the environment supplies to the
    statement. *)
Inductive Move : Type :=
| Arrive (mac_addr data : list Z) (data_len : Z)
| TaskStep (now : Z) (add_ret mod_ret : esp_err_t)
| LoopStep (now now' : Z) (del_ret : esp_err_t).

Definition sys_step (mv : Move) (y : Sys) : option (Sys * list Event) :=
  match mv with
  | Arrive mac_addr data data_len =>
      Some (mkSys (state_of (OnDataRecv mac_addr data data_len (globals y)))
                  (task_pc y) (loop_pc y),
            trace_of (OnDataRecv mac_addr data data_len (globals y)))
  | TaskStep now add_ret mod_ret =>
      match task_step now add_ret mod_ret (globals y) (task_pc y) with
      | None => None
      | Some (pc, g, tr) => Some (mkSys g pc (loop_pc y), tr)
      end
  | LoopStep now now' del_ret =>
      let '(pc, g, tr) := loop_step now now' del_ret (globals y) (loop_pc y) in
      Some (mkSys g (task_pc y) pc, tr)
  end.

Fixpoint sys_run (mvs : list Move) (y : Sys) : option (Sys * list Event) :=
  match mvs with
  | [] => Some (y, [])
  | mv :: mvs' =>
      match sys_step mv y with
      | None => None
      | Some (y1, t1) =>
          match sys_run mvs' y1 with
          | None => None
          | Some (y2, t2) => Some (y2, t1 ++ t2)
          end
      end
  end.

(** What the platform guarantees about the arguments of a move: a hardware
    address has six bytes, [data_len] is the length of [data], and
    [millis()] is a 32-bit value. *)
Definition valid_move (mv : Move) : Prop :=
  match mv with
  | Arrive mac_addr data data_len =>
      List.length mac_addr = 6%nat /\ Forall is_uint8 mac_addr /\
      Forall is_uint8 data /\ data_len = Z.of_nat (List.length data)
  | TaskStep now _ _ => is_uint32 now
  | LoopStep now now' _ => is_uint32 now /\ is_uint32 now'
  end.

(** The states the system can be in after power-up. *)
Inductive sys_reachable : Sys -> Prop :=
| sys_reachable_init : sys_reachable initial_sys
| sys_reachable_step : forall y mv y' tr,
    sys_reachable y -> valid_move mv -> sys_step mv y = Some (y', tr) ->
    sys_reachable y'.

(** Between operations: the task waits for an entry and no pass of [loop] is
    under way. *)
Definition quiescent (y : Sys) : Prop :=
  task_pc y = TaskBlocked /\ loop_pc y = LoopIdle.

(** A context stands between the two writes of a transition: the connect
    transition has stored the address (l.106) but not yet set the flag
    (l.124), or the reset has cleared the flag (l.230) but not yet the
    address (l.231). *)
Definition between_writes (y : Sys) : bool :=
  match task_pc y with
  | TaskPeerStored _ | TaskPeerRegistered _ => true
  | _ => false
  end
  || match loop_pc y with
     | LoopFlagCleared => true
     | _ => false
     end.

Definition task_item (pc : TaskPc) : list QueueItem_t.t :=
  match pc with
  | TaskBlocked => []
  | TaskReceived it | TaskRefreshed it | TaskConnecting it
  | TaskPeerStored it | TaskPeerRegistered it | TaskDispatching it => [it]
  end.

(** The invariant of the interleaved system. *)
Definition sys_invariant (y : Sys) : Prop :=
  List.length (peerMacAddress (globals y)) = 6%nat /\
  Forall (fun it => List.length (QueueItem_t.mac_addr it) = 6%nat)
         (task_item (task_pc y) ++ mouseDataQueue (globals y)) /\
  (isConnected (globals y) = false -> between_writes y = false ->
   peerMacAddress (globals y) = repeat 0 6).

(** Running a context for [n] statements with the same answers. *)
Fixpoint task_steps (n : nat) (now : Z) (add_ret mod_ret : esp_err_t)
  (g : State) (pc : TaskPc) : option (TaskPc * State * list Event) :=
  match n with
  | O => Some (pc, g, [])
  | S k =>
      match task_step now add_ret mod_ret g pc with
      | None => None
      | Some (pc1, g1, t1) =>
          match task_steps k now add_ret mod_ret g1 pc1 with
          | None => None
          | Some (pc2, g2, t2) => Some (pc2, g2, t1 ++ t2)
          end
      end
  end.

Fixpoint loop_steps (n : nat) (now now' : Z) (del_ret : esp_err_t)
  (g : State) (pc : LoopPc) : LoopPc * State * list Event :=
  match n with
  | O => (pc, g, [])
  | S k =>
      let '(pc1, g1, t1) := loop_step now now' del_ret g pc in
      let '(pc2, g2, t2) := loop_steps k now now' del_ret g1 pc1 in
      (pc2, g2, t1 ++ t2)
  end.

(** ** Observations on traces *)

Definition is_hid (e : Event) : bool :=
  match e with
  | Mouse_move _ _ _ | Mouse_press _ | Mouse_release _ => true
  | _ => false
  end.
Definition is_move (e : Event) : bool :=
  match e with Mouse_move _ _ _ => true | _ => false end.
Definition is_button (e : Event) : bool :=
  match e with Mouse_press _ | Mouse_release _ => true | _ => false end.
Definition is_send (e : Event) : bool :=
  match e with esp_now_send _ _ _ => true | _ => false end.
Definition is_del_peer (e : Event) : bool :=
  match e with esp_now_del_peer _ => true | _ => false end.

(** Reading a NUL-terminated name out of a character buffer. *)
Fixpoint read_c_string (buf : list Z) : string :=
  match buf with
  | [] => EmptyString
  | c :: rest =>
      if c =? 0 then EmptyString
      else String (ascii_of_nat (Z.to_nat c)) (read_c_string rest)
  end.

(** ** The button diff in the words of the specification

    [changed = newMask XOR lastMask]; the five bits are visited in ascending
    order; a set bit of [changed] gives a press when the bit of [newMask] is
    set and a release otherwise; the stored mask is replaced only when
    [changed] is not zero. *)
Definition button_order : list (Z * Button) :=
  [(0, MOUSE_LEFT); (1, MOUSE_RIGHT); (2, MOUSE_MIDDLE);
   (3, MOUSE_BACKWARD); (4, MOUSE_FORWARD)].

Definition spec_button_actions (newMask lastMask : Z) : list Event :=
  let changed := Z.lxor newMask lastMask in
  flat_map
    (fun ib : Z * Button =>
       if Z.testbit changed (fst ib)
       then [if Z.testbit newMask (fst ib)
             then Mouse_press (snd ib) else Mouse_release (snd ib)]
       else [])
    button_order.

Definition spec_next_mask (newMask lastMask : Z) : Z :=
  if Z.lxor newMask lastMask =? 0 then lastMask else newMask.

(** ** The buttons held down on the host after a trace

    The bit that lines 137-141 test for each button, and the effect of a
    press or a release on the set of held buttons. *)
Definition button_bit (b : Button) : Z :=
  match b with
  | MOUSE_LEFT => 0x01
  | MOUSE_RIGHT => 0x02
  | MOUSE_MIDDLE => 0x04
  | MOUSE_BACKWARD => 0x08
  | MOUSE_FORWARD => 0x10
  end.

Definition held_after (held : Z) (e : Event) : Z :=
  match e with
  | Mouse_press b => Z.lor held (button_bit b)
  | Mouse_release b => Z.ldiff held (button_bit b)
  | _ => held
  end.

Definition held_after_trace (held : Z) (tr : list Event) : Z :=
  fold_left held_after tr held.

(** ** A run of the consumer task over a sequence of deliveries *)

Record Delivery : Type := mkDelivery {
  at_time : Z;
  add_answer : esp_err_t;
  mod_answer : esp_err_t;
  entry : QueueItem_t.t
}.

Fixpoint mouseTask_run (ds : list Delivery) : M unit :=
  match ds with
  | [] => ret tt
  | d :: ds' =>
      mouseTask_body (at_time d) (add_answer d) (mod_answer d) (entry d) ;;
      mouseTask_run ds'
  end.

Definition mouse_data_delivery (d : Delivery) : Prop :=
  QueueItem_t.type (entry d) = PACKET_TYPE_MOUSE_DATA /\
  is_uint8 (QueueItem_t.buttons (entry d)).

Definition last_buttons_of (ds : list Delivery) (start : Z) : Z :=
  fold_left (fun _ d => QueueItem_t.buttons (entry d)) ds start.

(** Frames used in the examples. *)
Definition frame (ty : PacketType) (dx dy w b : Z) : list Z :=
  bytes_of_packet (UniversalPacket.mk ty (repeat 0 32) dx dy w b).

Definition item (mac : list Z) (ty : PacketType) (dx dy w b : Z)
  : QueueItem_t.t := QueueItem_t.mk mac ty dx dy w b.

Definition mac_A : list Z := [0x24; 0x6F; 0x28; 0x01; 0x02; 0x03].

(** The events of one [button_action] and of the five of them in program
    order, used to state what [handle_mouse_data] emits. *)
Definition button_action_trace (changed_buttons buttons mask : Z) (b : Button)
  : list Event :=
  if Z.land changed_buttons mask =? 0 then []
  else [if Z.land buttons mask =? 0 then Mouse_release b else Mouse_press b].

Definition button_actions_trace (changed_buttons buttons : Z) : list Event :=
  button_action_trace changed_buttons buttons 0x01 MOUSE_LEFT
  ++ button_action_trace changed_buttons buttons 0x02 MOUSE_RIGHT
  ++ button_action_trace changed_buttons buttons 0x04 MOUSE_MIDDLE
  ++ button_action_trace changed_buttons buttons 0x08 MOUSE_BACKWARD
  ++ button_action_trace changed_buttons buttons 0x10 MOUSE_FORWARD.

Definition move_trace (dx dy w : Z) : list Event :=
  if (dx =? 0) && (dy =? 0) && (w =? 0) then [] else [Mouse_move dx dy w].

Definition connect_trace (add_ret mod_ret : esp_err_t) (mac peer : list Z)
  : list Event :=
  let peerInfo :=
    mk_peer (memcpy (repeat 0 6) (memcpy peer mac 6) 6)
            WIFI_CHANNEL false WIFI_IF_STA in
  Serial_println (LogFirstPacket mac)
  :: esp_now_add_peer peerInfo
  :: match add_ret with
     | ESP_OK => [Serial_println LogPeerAdded]
     | _ => [esp_now_mod_peer peerInfo;
             Serial_println (match mod_ret with
                             | ESP_OK => LogPeerUpdated
                             | _ => LogPeerWarning
                             end)]
     end.

(** The events of [resetConnection] and of one broadcast of [loop]. *)
Definition reset_trace (del_ret : esp_err_t) (peer : list Z) : list Event :=
  [Serial_println LogTimeoutReset;
   esp_now_del_peer peer;
   Serial_println (match del_ret with
                   | ESP_OK => LogPeerDeleted
                   | ESP_ERR_ESPNOW_NOT_FOUND => LogPeerNotFound
                   | ESP_ERR_OTHER => LogPeerDeleteFailed
                   end);
   Serial_println LogBackToBroadcast;
   Serial_println LogSeparator].

Definition beacon_trace : list Event :=
  [esp_now_send broadcastAddress (bytes_of_packet discoveryPacket)
                sizeof_UniversalPacket;
   Serial_println LogBroadcasting].

(** The connection variables after lines 93-125. *)
Definition connected_state (now : Z) (it : QueueItem_t.t) (s : State) : State :=
  if isConnected s then set_lastPacketTime now s
  else set_isConnected true
         (set_peerMacAddress
            (memcpy (peerMacAddress s) (QueueItem_t.mac_addr it) 6)
            (set_lastPacketTime now s)).

(** ** Sequences of frames and of task iterations *)

(** A frame as the radio hands it to the callback: sender address, bytes and
    length; the entry the callback offers for it, if any; and what the
    environment supplies to one task iteration. *)
Definition RawFrame : Type := (list Z * list Z * Z)%type.

Definition recv_op (f : RawFrame) : Op :=
  RecvFrame (fst (fst f)) (snd (fst f)) (snd f).

Definition offered (f : RawFrame) : list QueueItem_t.t :=
  match OnDataRecv_item (fst (fst f)) (snd (fst f)) (snd f) with
  | Some it => [it]
  | None => []
  end.

Definition TaskEnv : Type := (Z * esp_err_t * esp_err_t)%type.

Definition task_op (e : TaskEnv) : Op :=
  TaskIteration (fst (fst e)) (snd (fst e)) (snd e).

Definition deliveries (envs : list TaskEnv) (q : list QueueItem_t.t)
  : list Delivery :=
  map (fun ei => mkDelivery (fst (fst (fst ei))) (snd (fst (fst ei)))
                            (snd (fst ei)) (snd ei))
      (combine envs q).

(** An entry with another sender address. *)
Definition with_sender (mac : list Z) (it : QueueItem_t.t) : QueueItem_t.t :=
  QueueItem_t.mk mac (QueueItem_t.type it) (QueueItem_t.deltaX it)
                 (QueueItem_t.deltaY it) (QueueItem_t.wheel it)
                 (QueueItem_t.buttons it).

Definition is_add_peer (e : Event) : bool :=
  match e with esp_now_add_peer _ => true | _ => false end.
Definition is_mod_peer (e : Event) : bool :=
  match e with esp_now_mod_peer _ => true | _ => false end.
Definition is_serial (e : Event) : bool :=
  match e with Serial_println _ => true | _ => false end.

(** A press of a button that is up and a release of a button that is down
    are the only button events the host should see; [presses_consistent]
    checks a trace against the buttons held before it. *)
Fixpoint presses_consistent (held : Z) (tr : list Event) : bool :=
  match tr with
  | [] => true
  | e :: tr' =>
      match e with
      | Mouse_press b =>
          (Z.land held (button_bit b) =? 0)
          && presses_consistent (held_after held e) tr'
      | Mouse_release b =>
          negb (Z.land held (button_bit b) =? 0)
          && presses_consistent (held_after held e) tr'
      | _ => presses_consistent held tr'
      end
  end.

(** Well-formed field values of a packet object. *)
Definition packet_wf (p : UniversalPacket.t) : Prop :=
  is_uint32 (UniversalPacket.type p) /\
  List.length (UniversalPacket.deviceName p) = 32%nat /\
  Forall is_uint8 (UniversalPacket.deviceName p) /\
  is_int16 (UniversalPacket.deltaX p) /\
  is_int16 (UniversalPacket.deltaY p) /\
  is_int8 (UniversalPacket.wheel p) /\
  is_uint8 (UniversalPacket.buttons p).

(** ** Bring-up: [initWiFi] (lines 150-216) and [setup] (lines 236-274)

    The calls into the platform are recorded in program order; what each call
    answers is a field of [Platform].  A function body either goes on with a
    value or has left the function, by [return] or, under [ESP_ERROR_CHECK],
    by aborting the firmware. *)
Module Bringup.

(** The error codes these two functions tell apart. *)
Inductive esp_err_t : Type :=
| ESP_OK
| ESP_ERR_NVS_NO_FREE_PAGES
| ESP_ERR_NVS_NEW_VERSION_FOUND
| ESP_ERR_INVALID_STATE
| ESP_ERR_OTHER.

Inductive Call : Type :=
| nvs_flash_init
| nvs_flash_erase
| esp_netif_init
| esp_event_loop_create_default
| esp_netif_create_default_wifi_sta
| esp_wifi_init
| esp_wifi_set_storage_RAM
| esp_wifi_set_mode_STA
| esp_wifi_start
| esp_wifi_set_channel (primary : Z)
| esp_now_init
| Serial_begin (baud : Z)
| USB_begin
| Mouse_begin
| xQueueCreate (length item_size : Z)
| esp_now_register_recv_cb
| esp_now_add_peer (p : esp_now_peer_info_t)
| xTaskCreatePinnedToCore (stack priority core : Z)
| Serial_error (failed : Call)
| Serial_banner
| Serial_packet_size (n : Z)
| Serial_wifi_failed
| Serial_ready.

Record Platform : Type := mkPlatform {
  nvs_flash_init_ret : esp_err_t;
  nvs_flash_erase_ret : esp_err_t;
  nvs_flash_init_again_ret : esp_err_t;
  (* whether a failed ESP_ERROR_CHECK aborts (it does unless NDEBUG) *)
  error_check_aborts : bool;
  esp_netif_init_ret : esp_err_t;
  esp_event_loop_create_default_ret : esp_err_t;
  sta_netif_created : bool;
  esp_wifi_init_ret : esp_err_t;
  esp_wifi_set_storage_ret : esp_err_t;
  esp_wifi_set_mode_ret : esp_err_t;
  esp_wifi_start_ret : esp_err_t;
  esp_wifi_set_channel_ret : esp_err_t;
  esp_now_init_ret : esp_err_t;
  queue_created : bool;
  esp_now_register_recv_cb_ret : esp_err_t;
  esp_now_add_peer_ret : esp_err_t;
  configMAX_PRIORITIES : Z
}.

Inductive Exit (R : Type) : Type :=
| Returned (r : R)
| Aborted.
Arguments Returned {R} r.
Arguments Aborted {R}.

Definition B (R A : Type) : Type := ((A + Exit R) * list Call)%type.

Definition ret {R A} (a : A) : B R A := (inl a, []).
Definition bind {R A A'} (m : B R A) (k : A -> B R A') : B R A' :=
  match m with
  | (inl a, t) => let '(x, t') := k a in (x, t ++ t')
  | (inr e, t) => (inr e, t)
  end.
Definition call {R A} (c : Call) (answer : A) : B R A := (inl answer, [c]).
Definition emit {R} (c : Call) : B R unit := (inl tt, [c]).
Definition return_ {R A} (r : R) : B R A := (inr (Returned r), []).
Definition abort {R A} : B R A := (inr Aborted, []).

(** Calling a function from another body: its return value is the value of
    the call, an abort goes through. *)
Definition invoke {R R'} (m : B R' Empty_set) : B R R' :=
  match m with
  | (inl a, _) => match a with end
  | (inr (Returned r), t) => (inl r, t)
  | (inr Aborted, t) => (inr Aborted, t)
  end.

Definition exit_of {R} (m : B R Empty_set) : Exit R :=
  match fst m with
  | inl a => match a with end
  | inr e => e
  end.

Definition calls_of {R A} (m : B R A) : list Call := snd m.

Declare Scope b_scope.
Delimit Scope b_scope with B.
Notation "x <- m ;; k" := (bind m (fun x => k))
  (at level 61, m at next level, right associativity) : b_scope.
Notation "m ;; k" := (bind m (fun _ => k))
  (at level 61, right associativity) : b_scope.
Local Open Scope b_scope.

Definition ESP_ERROR_CHECK {R} (p : Platform) (err : esp_err_t) : B R unit :=
  match err with
  | ESP_OK => ret tt
  | _ => if error_check_aborts p then abort else ret tt
  end.

(** [if (err != ESP_OK) { Serial.printf(...); return false; }] *)
Definition fail_unless_ok (err : esp_err_t) (c : Call) : B bool unit :=
  match err with
  | ESP_OK => ret tt
  | _ => emit (Serial_error c) ;; return_ false
  end.

Definition initWiFi (p : Platform) : B bool Empty_set :=
  err <- call nvs_flash_init (nvs_flash_init_ret p) ;;
  err <- match err with
         | ESP_ERR_NVS_NO_FREE_PAGES | ESP_ERR_NVS_NEW_VERSION_FOUND =>
             e <- call nvs_flash_erase (nvs_flash_erase_ret p) ;;
             ESP_ERROR_CHECK p e ;;
             call nvs_flash_init (nvs_flash_init_again_ret p)
         | _ => ret err
         end ;;
  fail_unless_ok err nvs_flash_init ;;
  err <- call esp_netif_init (esp_netif_init_ret p) ;;
  fail_unless_ok err esp_netif_init ;;
  err <- call esp_event_loop_create_default
              (esp_event_loop_create_default_ret p) ;;
  match err with
  | ESP_OK | ESP_ERR_INVALID_STATE => ret tt
  | _ => emit (Serial_error esp_event_loop_create_default) ;; return_ false
  end ;;
  sta <- call esp_netif_create_default_wifi_sta (sta_netif_created p) ;;
  (if sta : bool then ret tt
   else emit (Serial_error esp_netif_create_default_wifi_sta) ;;
        return_ false) ;;
  err <- call esp_wifi_init (esp_wifi_init_ret p) ;;
  fail_unless_ok err esp_wifi_init ;;
  err <- call esp_wifi_set_storage_RAM (esp_wifi_set_storage_ret p) ;;
  fail_unless_ok err esp_wifi_set_storage_RAM ;;
  err <- call esp_wifi_set_mode_STA (esp_wifi_set_mode_ret p) ;;
  fail_unless_ok err esp_wifi_set_mode_STA ;;
  err <- call esp_wifi_start (esp_wifi_start_ret p) ;;
  fail_unless_ok err esp_wifi_start ;;
  err <- call (esp_wifi_set_channel WIFI_CHANNEL)
              (esp_wifi_set_channel_ret p) ;;
  fail_unless_ok err (esp_wifi_set_channel WIFI_CHANNEL) ;;
  err <- call esp_now_init (esp_now_init_ret p) ;;
  fail_unless_ok err esp_now_init ;;
  return_ true.

(** [sizeof(QueueItem_t)] with the default alignment: 6 + 2 + 4 + 2 + 2 + 1
    + 1 + 2. *)
Definition sizeof_QueueItem_t : Z := 20.

(** The peer entry of lines 262-265; the interface index stays at the zero
    of the initialiser, which is the station interface. *)
Definition broadcast_peer : esp_now_peer_info_t :=
  mk_peer (memcpy (repeat 0 6) broadcastAddress 6) WIFI_CHANNEL false
          WIFI_IF_STA.

Definition setup (p : Platform) : B unit Empty_set :=
  emit (Serial_begin 115200) ;;
  emit Serial_banner ;;
  emit (Serial_packet_size sizeof_UniversalPacket) ;;
  emit USB_begin ;;
  emit Mouse_begin ;;
  created <- call (xQueueCreate (Z.of_nat QUEUE_LENGTH) sizeof_QueueItem_t)
                  (queue_created p) ;;
  (if created : bool then ret tt
   else emit (Serial_error (xQueueCreate (Z.of_nat QUEUE_LENGTH)
                                         sizeof_QueueItem_t)) ;;
        return_ tt) ;;
  ok <- invoke (initWiFi p) ;;
  (if ok : bool then ret tt else emit Serial_wifi_failed ;; return_ tt) ;;
  cbErr <- call esp_now_register_recv_cb (esp_now_register_recv_cb_ret p) ;;
  match cbErr with
  | ESP_OK => ret tt
  | _ => emit (Serial_error esp_now_register_recv_cb) ;; return_ tt
  end ;;
  r <- call (esp_now_add_peer broadcast_peer) (esp_now_add_peer_ret p) ;;
  match r with
  | ESP_OK => ret tt
  | _ => emit (Serial_error (esp_now_add_peer broadcast_peer)) ;; return_ tt
  end ;;
  emit (xTaskCreatePinnedToCore 4096 (configMAX_PRIORITIES p - 1) 1) ;;
  emit Serial_ready ;;
  return_ tt.

Definition is_error (c : Call) : bool :=
  match c with
  | Serial_error _ | Serial_wifi_failed => true
  | _ => false
  end.

Definition is_task_create (c : Call) : bool :=
  match c with xTaskCreatePinnedToCore _ _ _ => true | _ => false end.

Definition is_register_cb (c : Call) : bool :=
  match c with esp_now_register_recv_cb => true | _ => false end.

(** The answers under which the storage, the network stack and the radio
    come up. *)
Definition nvs_comes_up (p : Platform) : Prop :=
  nvs_flash_init_ret p = ESP_OK \/
  ((nvs_flash_init_ret p = ESP_ERR_NVS_NO_FREE_PAGES \/
    nvs_flash_init_ret p = ESP_ERR_NVS_NEW_VERSION_FOUND) /\
   (nvs_flash_erase_ret p = ESP_OK \/ error_check_aborts p = false) /\
   nvs_flash_init_again_ret p = ESP_OK).

Definition wifi_comes_up (p : Platform) : Prop :=
  nvs_comes_up p /\
  esp_netif_init_ret p = ESP_OK /\
  (esp_event_loop_create_default_ret p = ESP_OK \/
   esp_event_loop_create_default_ret p = ESP_ERR_INVALID_STATE) /\
  sta_netif_created p = true /\
  esp_wifi_init_ret p = ESP_OK /\
  esp_wifi_set_storage_ret p = ESP_OK /\
  esp_wifi_set_mode_ret p = ESP_OK /\
  esp_wifi_start_ret p = ESP_OK /\
  esp_wifi_set_channel_ret p = ESP_OK /\
  esp_now_init_ret p = ESP_OK.

(** A platform on which every call succeeds. *)
Definition healthy : Platform :=
  mkPlatform ESP_OK ESP_OK ESP_OK true ESP_OK ESP_OK true ESP_OK ESP_OK
             ESP_OK ESP_OK ESP_OK ESP_OK true ESP_OK ESP_OK 25.

(** The platform calls of [initWiFi] in program order: the flash
    initialisation, repeated after an erase when the first attempt reports a
    full or outdated partition, then the network stack and the radio. *)
Definition nvs_calls (p : Platform) : list Call :=
  match nvs_flash_init_ret p with
  | ESP_ERR_NVS_NO_FREE_PAGES | ESP_ERR_NVS_NEW_VERSION_FOUND =>
      [nvs_flash_init; nvs_flash_erase; nvs_flash_init]
  | _ => [nvs_flash_init]
  end.

Definition wifi_calls : list Call :=
  [esp_netif_init; esp_event_loop_create_default;
   esp_netif_create_default_wifi_sta; esp_wifi_init;
   esp_wifi_set_storage_RAM; esp_wifi_set_mode_STA; esp_wifi_start;
   esp_wifi_set_channel WIFI_CHANNEL; esp_now_init].

(** The answers under which [ESP_ERROR_CHECK] stops the firmware. *)
Definition nvs_aborts (p : Platform) : Prop :=
  (nvs_flash_init_ret p = ESP_ERR_NVS_NO_FREE_PAGES \/
   nvs_flash_init_ret p = ESP_ERR_NVS_NEW_VERSION_FOUND) /\
  nvs_flash_erase_ret p <> ESP_OK /\
  error_check_aborts p = true.

(** What [setup] does before it looks at any answer. *)
Definition setup_prefix : list Call :=
  [Serial_begin 115200; Serial_banner;
   Serial_packet_size sizeof_UniversalPacket; USB_begin; Mouse_begin;
   xQueueCreate (Z.of_nat QUEUE_LENGTH) sizeof_QueueItem_t].

(** The calls and lines that [initWiFi] can make. *)
Definition is_wifi_call (c : Call) : bool :=
  match c with
  | nvs_flash_init | nvs_flash_erase | esp_netif_init
  | esp_event_loop_create_default | esp_netif_create_default_wifi_sta
  | esp_wifi_init | esp_wifi_set_storage_RAM | esp_wifi_set_mode_STA
  | esp_wifi_start | esp_wifi_set_channel _ | esp_now_init
  | Serial_error _ => true
  | _ => false
  end.

End Bringup.

(** Case analysis on the next answer of the platform that a body waits
    for. *)
Ltac next_answer :=
  match goal with
  | |- context [match ?x with _ => _ end] => is_var x; destruct x; cbn
  end.

(** Splitting a literal trace at its last two events. *)
Ltac split_rest := do 2 eexists; split; reflexivity.
Ltac split_trace :=
  first
    [ exists (@nil Bringup.Call); split_rest
    | eexists [_]; split_rest
    | eexists [_; _]; split_rest
    | eexists [_; _; _]; split_rest
    | eexists [_; _; _; _]; split_rest
    | eexists [_; _; _; _; _]; split_rest
    | eexists [_; _; _; _; _; _]; split_rest
    | eexists [_; _; _; _; _; _; _]; split_rest
    | eexists [_; _; _; _; _; _; _; _]; split_rest
    | eexists [_; _; _; _; _; _; _; _; _]; split_rest
    | eexists [_; _; _; _; _; _; _; _; _; _]; split_rest
    | eexists [_; _; _; _; _; _; _; _; _; _; _]; split_rest ].

(** Every element of a literal list is a byte. *)
Ltac bytes_in_range :=
  repeat (apply Forall_cons; [unfold is_uint8; lia|]); apply Forall_nil.

(** * Theorems *)

(** ** Equations of the embedded functions *)

Lemma button_action_eq (c b m : Z) (btn : Button) (s : State) :
  button_action c b m btn s = (tt, s, button_action_trace c b m btn).
Proof.
  unfold button_action, button_action_trace, when, emit, ret.
  destruct (Z.land c m =? 0); simpl; [reflexivity|].
  destruct (Z.land b m =? 0); reflexivity.
Qed.

Lemma handle_mouse_data_eq (it : QueueItem_t.t) (s : State) :
  handle_mouse_data it s =
  (tt,
   (if QueueItem_t.buttons it =? lastButtons s then s
    else set_lastButtons (QueueItem_t.buttons it) s),
   move_trace (QueueItem_t.deltaX it) (QueueItem_t.deltaY it)
              (QueueItem_t.wheel it)
   ++ (if QueueItem_t.buttons it =? lastButtons s then []
       else button_actions_trace
              (to_uint8 (Z.lxor (QueueItem_t.buttons it) (lastButtons s)))
              (QueueItem_t.buttons it))).
Proof.
  unfold handle_mouse_data, move_trace, button_actions_trace.
  unfold bind at 1. unfold when at 1.
  destruct (QueueItem_t.deltaX it =? 0), (QueueItem_t.deltaY it =? 0),
    (QueueItem_t.wheel it =? 0); simpl;
    unfold bind, get, when; simpl;
    (destruct (QueueItem_t.buttons it =? lastButtons s); simpl;
     [reflexivity|]);
    rewrite !button_action_eq; unfold modify; simpl;
    rewrite ?app_nil_r, <- ?app_assoc; reflexivity.
Qed.

Lemma dispatch_eq (it : QueueItem_t.t) (s : State) :
  dispatch it s =
  if QueueItem_t.type it =? PACKET_TYPE_MOUSE_DATA
  then handle_mouse_data it s else (tt, s, []).
Proof.
  unfold dispatch, when, ret.
  destruct (QueueItem_t.type it =? PACKET_TYPE_MOUSE_DATA); reflexivity.
Qed.

Lemma connect_eq (a m : esp_err_t) (it : QueueItem_t.t) (s : State) :
  connect a m it s =
  (tt,
   set_isConnected true
     (set_peerMacAddress
        (memcpy (peerMacAddress s) (QueueItem_t.mac_addr it) 6) s),
   connect_trace a m (QueueItem_t.mac_addr it) (peerMacAddress s)).
Proof.
  unfold connect, connect_trace, bind, emit, modify, get, call.
  destruct a; simpl; try reflexivity; destruct m; reflexivity.
Qed.

Lemma after_refresh_eq (a m : esp_err_t) (it : QueueItem_t.t) (s : State) :
  after_refresh a m it s =
  if isConnected s then dispatch it s
  else
    let s1 := set_isConnected true
                (set_peerMacAddress
                   (memcpy (peerMacAddress s) (QueueItem_t.mac_addr it) 6) s) in
    (tt, state_of (dispatch it s1),
     connect_trace a m (QueueItem_t.mac_addr it) (peerMacAddress s)
     ++ trace_of (dispatch it s1)).
Proof.
  unfold after_refresh, bind at 1 2. unfold get at 1.
  destruct (isConnected s); simpl.
  - unfold ret. destruct (dispatch it s) as [[[] s'] t]. reflexivity.
  - rewrite connect_eq.
    destruct (dispatch it _) as [[[] s'] t]. reflexivity.
Qed.

Lemma mouseTask_body_eq (now : Z) (a m : esp_err_t) (it : QueueItem_t.t)
  (s : State) :
  mouseTask_body now a m it s =
  after_refresh a m it (set_lastPacketTime now s).
Proof.
  unfold mouseTask_body, bind, modify.
  destruct (after_refresh a m it (set_lastPacketTime now s)) as [[[] s'] t].
  reflexivity.
Qed.

(** ** Arrays and integers *)

Lemma memcpy_whole (dst src : list Z) (n : nat) :
  List.length src = n -> List.length dst = n -> memcpy dst src n = src.
Proof.
  intros Hs Hd. unfold memcpy.
  rewrite firstn_all2 by lia. rewrite skipn_all2 by lia. apply app_nil_r.
Qed.

Lemma memset_whole (dst : list Z) (c : Z) (n : nat) :
  List.length dst = n -> memset dst c n = repeat c n.
Proof.
  intros Hd. unfold memset. rewrite skipn_all2 by lia. apply app_nil_r.
Qed.

Lemma int16_of_bytes (z : Z) :
  is_int16 z -> to_int16 (z mod 256 + 256 * ((z / 256) mod 256 + 256 * 0)) = z.
Proof.
  unfold is_int16, to_int16. intros H.
  replace (z mod 256 + 256 * ((z / 256) mod 256 + 256 * 0)) with (z mod 65536).
  - rewrite Z.mod_mod by lia.
    destruct (Z.ltb_spec (z mod 65536) 32768);
      Z.div_mod_to_equations; lia.
  - Z.div_mod_to_equations; lia.
Qed.

Lemma int8_of_byte (z : Z) : is_int8 z -> to_int8 (z mod 256) = z.
Proof.
  unfold is_int8, to_int8. intros H. rewrite Z.mod_mod by lia.
  destruct (Z.ltb_spec (z mod 256) 128); Z.div_mod_to_equations; lia.
Qed.

(** Decoding the bytes of a data or heartbeat packet gives the packet back. *)
Lemma packet_roundtrip (ty : PacketType) (name : list Z) (dx dy w b : Z) :
  ty = PACKET_TYPE_MOUSE_DATA \/ ty = PACKET_TYPE_HEARTBEAT ->
  List.length name = 32%nat ->
  is_int16 dx -> is_int16 dy -> is_int8 w -> is_uint8 b ->
  packet_of_bytes (bytes_of_packet (UniversalPacket.mk ty name dx dy w b)) =
  UniversalPacket.mk ty name dx dy w b.
Proof.
  intros Hty Hn Hx Hy Hw Hb.
  do 32 (destruct name as [|? name]; [discriminate Hn|]).
  destruct name; [clear Hn|discriminate Hn].
  unfold bytes_of_packet, packet_of_bytes, le_bytes, byte_at.
  cbn [UniversalPacket.type UniversalPacket.deviceName UniversalPacket.deltaX
       UniversalPacket.deltaY UniversalPacket.wheel UniversalPacket.buttons
       bytes_le app repeat firstn skipn nth fold_right].
  rewrite !int16_of_bytes, int8_of_byte by assumption.
  f_equal.
  - destruct Hty; subst ty; reflexivity.
  - unfold is_uint8 in Hb. apply Z.mod_small. lia.
Qed.


(** ** What a processed entry leaves untouched *)

Lemma dispatch_state (it : QueueItem_t.t) (s : State) :
  state_of (dispatch it s) =
  if (QueueItem_t.type it =? PACKET_TYPE_MOUSE_DATA)
     && negb (QueueItem_t.buttons it =? lastButtons s)
  then set_lastButtons (QueueItem_t.buttons it) s else s.
Proof.
  rewrite dispatch_eq.
  destruct (QueueItem_t.type it =? PACKET_TYPE_MOUSE_DATA); [|reflexivity].
  rewrite handle_mouse_data_eq. unfold state_of. simpl.
  destruct (QueueItem_t.buttons it =? lastButtons s); reflexivity.
Qed.

Lemma dispatch_frame (it : QueueItem_t.t) (s : State) :
  mouseDataQueue (state_of (dispatch it s)) = mouseDataQueue s /\
  isConnected (state_of (dispatch it s)) = isConnected s /\
  lastPacketTime (state_of (dispatch it s)) = lastPacketTime s /\
  peerMacAddress (state_of (dispatch it s)) = peerMacAddress s /\
  lastBroadcastTime (state_of (dispatch it s)) = lastBroadcastTime s.
Proof.
  rewrite dispatch_state.
  destruct (_ && _); repeat split; reflexivity.
Qed.

Lemma after_refresh_state (a m : esp_err_t) (it : QueueItem_t.t) (s : State) :
  state_of (after_refresh a m it s) =
  state_of (dispatch it
    (if isConnected s then s
     else set_isConnected true
            (set_peerMacAddress
               (memcpy (peerMacAddress s) (QueueItem_t.mac_addr it) 6) s))).
Proof.
  rewrite after_refresh_eq. destruct (isConnected s); reflexivity.
Qed.

Lemma after_refresh_trace (a m : esp_err_t) (it : QueueItem_t.t) (s : State) :
  trace_of (after_refresh a m it s) =
  (if isConnected s then []
   else connect_trace a m (QueueItem_t.mac_addr it) (peerMacAddress s))
  ++ trace_of (dispatch it
       (if isConnected s then s
        else set_isConnected true
               (set_peerMacAddress
                  (memcpy (peerMacAddress s) (QueueItem_t.mac_addr it) 6) s))).
Proof.
  rewrite after_refresh_eq. destruct (isConnected s); reflexivity.
Qed.

Lemma connect_trace_no_hid (a m : esp_err_t) (mac peer : list Z) :
  filter is_hid (connect_trace a m mac peer) = [].
Proof. destruct a, m; reflexivity. Qed.

Lemma filter_idle {A} (f : A -> bool) (l : list A) :
  forallb (fun x => negb (f x)) l = true -> filter f l = [].
Proof.
  induction l as [|x l IH]; simpl; [reflexivity|].
  destruct (f x); simpl; [discriminate|exact IH].
Qed.

Lemma filter_negb_all {A} (f : A -> bool) (l : list A) :
  forallb f l = true -> filter (fun x => negb (f x)) l = [].
Proof.
  induction l as [|x l IH]; simpl; [reflexivity|].
  destruct (f x); simpl; [exact IH|discriminate].
Qed.

Lemma filter_all {A} (f : A -> bool) (l : list A) :
  forallb f l = true -> filter f l = l.
Proof.
  induction l as [|x l IH]; simpl; [reflexivity|].
  destruct (f x); simpl; [intros H; f_equal; auto|discriminate].
Qed.

Lemma dispatch_trace_hid (it : QueueItem_t.t) (s : State) :
  forallb is_hid (trace_of (dispatch it s)) = true.
Proof.
  rewrite dispatch_eq.
  destruct (QueueItem_t.type it =? PACKET_TYPE_MOUSE_DATA); [|reflexivity].
  rewrite handle_mouse_data_eq. unfold trace_of. simpl.
  rewrite forallb_app. apply andb_true_iff. split.
  - unfold move_trace. destruct (_ && _); reflexivity.
  - destruct (QueueItem_t.buttons it =? lastButtons s); [reflexivity|].
    unfold button_actions_trace, button_action_trace.
    repeat (rewrite forallb_app; apply andb_true_iff; split);
      repeat match goal with
             | |- context [if ?c then _ else _] => destruct c
             end; reflexivity.
Qed.

(** ** The connection controller *)

(** C1. Starting from a Disconnected state, processing the entry at the head
    of the queue, whatever its kind (MouseData and Heartbeat alike), makes the
    state Connected and stores the sender address of that entry in
    [peerMacAddress]; the requests sent to the radio and the console are the
    same for every kind of entry. *)
Theorem first_entry_connects
  (now : Z) (a m : esp_err_t) (s : State) (it : QueueItem_t.t)
  (rest : list QueueItem_t.t) :
  isConnected s = false ->
  mouseDataQueue s = it :: rest ->
  List.length (QueueItem_t.mac_addr it) = 6%nat ->
  List.length (peerMacAddress s) = 6%nat ->
  exists r,
    mouseTask_iteration now a m s = Some r /\
    isConnected (state_of r) = true /\
    peerMacAddress (state_of r) = QueueItem_t.mac_addr it /\
    filter (fun e => negb (is_hid e)) (trace_of r) =
      connect_trace a m (QueueItem_t.mac_addr it) (peerMacAddress s).
Proof.
  intros Hc Hq Hmac Hpeer.
  unfold mouseTask_iteration. rewrite Hq. eexists. split; [reflexivity|].
  rewrite mouseTask_body_eq, after_refresh_state, after_refresh_trace.
  replace (isConnected (set_lastPacketTime now (set_queue rest s)))
    with false by (symmetry; exact Hc).
  replace (peerMacAddress (set_lastPacketTime now (set_queue rest s)))
    with (peerMacAddress s) by reflexivity.
  match goal with |- context [dispatch it ?s1] => set (s1' := s1) end.
  destruct (dispatch_frame it s1') as (_ & Hi & _ & Hp & _).
  pose proof (dispatch_trace_hid it s1') as Hh.
  rewrite Hi, Hp, filter_app, (filter_negb_all is_hid _ Hh), app_nil_r.
  subst s1'. cbn [isConnected peerMacAddress set_isConnected
    set_peerMacAddress]. rewrite memcpy_whole by assumption.
  repeat split.
  apply filter_all. destruct a, m; reflexivity.
Qed.

Lemma first_entry_connects_witness :
  exists r,
    mouseTask_iteration 7 ESP_OK ESP_OK
      (set_queue [item mac_A PACKET_TYPE_HEARTBEAT 0 0 0 0] initial_state)
    = Some r /\
    isConnected (state_of r) = true /\
    peerMacAddress (state_of r) = mac_A /\
    filter (fun e => negb (is_hid e)) (trace_of r) =
      connect_trace ESP_OK ESP_OK mac_A (repeat 0 6).
Proof.
  apply (first_entry_connects 7 ESP_OK ESP_OK
           (set_queue [item mac_A PACKET_TYPE_HEARTBEAT 0 0 0 0] initial_state)
           (item mac_A PACKET_TYPE_HEARTBEAT 0 0 0 0) []);
    reflexivity.
Defined.

(** C4. Whenever the queue delivers an entry, of any kind and in either
    phase, the iteration first stores the current time in [lastPacketTime]:
    the iteration is the rest of the processing run on the state in which the
    refresh has already happened, and the value is still there at the end. *)
Theorem every_entry_refreshes_lastPacketTime
  (now : Z) (a m : esp_err_t) (s : State) (it : QueueItem_t.t)
  (rest : list QueueItem_t.t) :
  mouseDataQueue s = it :: rest ->
  exists r,
    mouseTask_iteration now a m s = Some r /\
    r = after_refresh a m it (set_lastPacketTime now (set_queue rest s)) /\
    lastPacketTime (state_of r) = now.
Proof.
  intros Hq. unfold mouseTask_iteration. rewrite Hq.
  eexists. split; [reflexivity|]. split; [apply mouseTask_body_eq|].
  rewrite mouseTask_body_eq, after_refresh_state.
  match goal with |- context [dispatch it ?s1] =>
    destruct (dispatch_frame it s1) as (_ & _ & Ht & _)
  end.
  rewrite Ht. destruct (isConnected _); reflexivity.
Qed.

Lemma every_entry_refreshes_lastPacketTime_witness :
  exists r,
    mouseTask_iteration 4242 ESP_OK ESP_OK
      (set_queue [item mac_A PACKET_TYPE_MOUSE_DATA 1 0 0 0] initial_state)
    = Some r /\
    r = after_refresh ESP_OK ESP_OK (item mac_A PACKET_TYPE_MOUSE_DATA 1 0 0 0)
          (set_lastPacketTime 4242 (set_queue []
             (set_queue [item mac_A PACKET_TYPE_MOUSE_DATA 1 0 0 0]
                        initial_state))) /\
    lastPacketTime (state_of r) = 4242.
Proof.
  apply (every_entry_refreshes_lastPacketTime 4242 ESP_OK ESP_OK
           (set_queue [item mac_A PACKET_TYPE_MOUSE_DATA 1 0 0 0] initial_state)
           (item mac_A PACKET_TYPE_MOUSE_DATA 1 0 0 0) []).
  reflexivity.
Defined.

(** ** The receive handler *)

Lemma OnDataRecv_item_spec (mac data : list Z) (data_len : Z) :
  (frame_accepted data data_len /\
   OnDataRecv_item mac data data_len = Some (item_of_frame mac data)) \/
  (~ frame_accepted data data_len /\
   OnDataRecv_item mac data data_len = None).
Proof.
  unfold OnDataRecv_item, frame_accepted, item_of_frame.
  destruct (Z.eqb_spec data_len sizeof_UniversalPacket) as [El|El];
    cbn [negb].
  - destruct (Z.eqb_spec (UniversalPacket.type (packet_of_bytes data))
                PACKET_TYPE_MOUSE_DATA) as [E1|E1]; cbn [orb].
    + left. repeat split; auto.
    + destruct (Z.eqb_spec (UniversalPacket.type (packet_of_bytes data))
                  PACKET_TYPE_HEARTBEAT) as [E2|E2].
      * left. repeat split; auto.
      * right. split; [|reflexivity]. intros (_ & [H|H]); contradiction.
  - right. split; [|reflexivity]. intros (H & _). contradiction.
Qed.

(** C5. The callback offers an entry to the queue exactly when the frame has
    the wire size and its tag is MouseData or Heartbeat.  Every other frame
    leaves the state as it is and produces no event.  An accepted frame only
    touches the queue (the entry is appended unless the queue is full), and
    the entry carries the payload as decoded: any values of the field types
    pass, nothing is range-checked. *)
Theorem OnDataRecv_accepts_exactly
  (mac data : list Z) (data_len : Z) (s : State) :
  ((exists it, OnDataRecv_item mac data data_len = Some it) <->
   frame_accepted data data_len) /\
  (~ frame_accepted data data_len ->
   OnDataRecv mac data data_len s = (tt, s, [])) /\
  (frame_accepted data data_len ->
   OnDataRecv mac data data_len s =
   (tt,
    (if (List.length (mouseDataQueue s) <? QUEUE_LENGTH)%nat
     then set_queue (mouseDataQueue s ++ [item_of_frame mac data]) s
     else s),
    [])) /\
  (forall ty name dx dy w b,
     ty = PACKET_TYPE_MOUSE_DATA \/ ty = PACKET_TYPE_HEARTBEAT ->
     List.length name = 32%nat ->
     is_int16 dx -> is_int16 dy -> is_int8 w -> is_uint8 b ->
     OnDataRecv_item mac
       (bytes_of_packet (UniversalPacket.mk ty name dx dy w b))
       sizeof_UniversalPacket
     = Some (QueueItem_t.mk (memcpy (repeat 0 6) mac 6) ty dx dy w b)).
Proof.
  split; [split|split; [|split]].
  - intros [it Hit].
    destruct (OnDataRecv_item_spec mac data data_len) as [[H _]|[_ H]];
      [exact H|congruence].
  - intros H.
    destruct (OnDataRecv_item_spec mac data data_len) as [[_ E]|[N _]];
      [eauto|contradiction].
  - intros N. unfold OnDataRecv.
    destruct (OnDataRecv_item_spec mac data data_len) as [[H _]|[_ E]];
      [contradiction|rewrite E; reflexivity].
  - intros H. unfold OnDataRecv.
    destruct (OnDataRecv_item_spec mac data data_len) as [[_ E]|[N _]];
      [rewrite E; reflexivity|contradiction].
  - intros ty name dx dy w b Hty Hn Hx Hy Hw Hb.
    destruct (OnDataRecv_item_spec mac
                (bytes_of_packet (UniversalPacket.mk ty name dx dy w b))
                sizeof_UniversalPacket) as [[_ E]|[N _]].
    + rewrite E. unfold item_of_frame.
      rewrite packet_roundtrip by assumption. reflexivity.
    + exfalso. apply N. unfold frame_accepted.
      rewrite packet_roundtrip by assumption. auto.
Qed.

Lemma OnDataRecv_accepts_exactly_witness :
  OnDataRecv mac_A (frame PACKET_TYPE_DISCOVERY 0 0 0 0) 42 initial_state
    = (tt, initial_state, []) /\
  OnDataRecv mac_A (frame PACKET_TYPE_MOUSE_DATA 5 (-3) 1 3) 41 initial_state
    = (tt, initial_state, []) /\
  OnDataRecv mac_A (frame PACKET_TYPE_MOUSE_DATA 5 (-3) 1 3) 42 initial_state
    = (tt,
       set_queue [item mac_A PACKET_TYPE_MOUSE_DATA 5 (-3) 1 3] initial_state,
       []) /\
  OnDataRecv_item mac_A (frame PACKET_TYPE_HEARTBEAT (-32768) 32767 (-128) 255)
                  42
    = Some (item mac_A PACKET_TYPE_HEARTBEAT (-32768) 32767 (-128) 255).
Proof.
  split; [|split; [|split]].
  - apply (OnDataRecv_accepts_exactly mac_A
             (frame PACKET_TYPE_DISCOVERY 0 0 0 0) 42 initial_state).
    intros (_ & [H|H]); vm_compute in H; discriminate H.
  - apply (OnDataRecv_accepts_exactly mac_A
             (frame PACKET_TYPE_MOUSE_DATA 5 (-3) 1 3) 41 initial_state).
    intros (H & _); vm_compute in H; discriminate H.
  - apply (OnDataRecv_accepts_exactly mac_A
             (frame PACKET_TYPE_MOUSE_DATA 5 (-3) 1 3) 42 initial_state).
    split; [reflexivity|left; reflexivity].
  - apply (proj2 (proj2 (proj2
             (OnDataRecv_accepts_exactly mac_A [] 0 initial_state)))
             PACKET_TYPE_HEARTBEAT (repeat 0 32) (-32768) 32767 (-128) 255);
      unfold is_int16, is_int8, is_uint8; try lia; auto.
Defined.

(** ** One iteration of the consumer task, summarised *)

Lemma mouseTask_body_state (now : Z) (a m : esp_err_t) (it : QueueItem_t.t)
  (s : State) :
  state_of (mouseTask_body now a m it s) =
  if (QueueItem_t.type it =? PACKET_TYPE_MOUSE_DATA)
     && negb (QueueItem_t.buttons it =? lastButtons s)
  then set_lastButtons (QueueItem_t.buttons it) (connected_state now it s)
  else connected_state now it s.
Proof.
  rewrite mouseTask_body_eq, after_refresh_state, dispatch_state.
  unfold connected_state. cbn [isConnected set_lastPacketTime].
  destruct (isConnected s); reflexivity.
Qed.

Lemma mouseTask_body_trace (now : Z) (a m : esp_err_t) (it : QueueItem_t.t)
  (s : State) :
  trace_of (mouseTask_body now a m it s) =
  (if isConnected s then []
   else connect_trace a m (QueueItem_t.mac_addr it) (peerMacAddress s))
  ++ (if QueueItem_t.type it =? PACKET_TYPE_MOUSE_DATA
      then move_trace (QueueItem_t.deltaX it) (QueueItem_t.deltaY it)
                      (QueueItem_t.wheel it)
           ++ (if QueueItem_t.buttons it =? lastButtons s then []
               else button_actions_trace
                      (to_uint8 (Z.lxor (QueueItem_t.buttons it)
                                        (lastButtons s)))
                      (QueueItem_t.buttons it))
      else []).
Proof.
  rewrite mouseTask_body_eq, after_refresh_trace.
  cbn [isConnected set_lastPacketTime peerMacAddress].
  f_equal. rewrite dispatch_eq.
  destruct (QueueItem_t.type it =? PACKET_TYPE_MOUSE_DATA); [|reflexivity].
  rewrite handle_mouse_data_eq. unfold trace_of. cbn [snd].
  destruct (isConnected s); reflexivity.
Qed.

(** ** Bits of the button mask *)

Lemma land_pow2_eqb (x i : Z) :
  0 <= i -> (Z.land x (2 ^ i) =? 0) = negb (Z.testbit x i).
Proof.
  intros Hi.
  assert (E : Z.land x (2 ^ i) = if Z.testbit x i then 2 ^ i else 0).
  { apply Z.bits_inj'. intros j Hj.
    rewrite Z.land_spec, Z.pow2_bits_eqb by lia.
    destruct (Z.eqb_spec i j) as [->|Hne].
    - destruct (Z.testbit x j) eqn:Hx; simpl.
      + rewrite Z.pow2_bits_true by lia. reflexivity.
      + rewrite Z.bits_0. reflexivity.
    - rewrite andb_false_r.
      destruct (Z.testbit x i).
      + rewrite Z.pow2_bits_false by lia. reflexivity.
      + rewrite Z.bits_0. reflexivity. }
  rewrite E. destruct (Z.testbit x i); simpl.
  - apply Z.eqb_neq. pose proof (Z.pow_pos_nonneg 2 i). lia.
  - reflexivity.
Qed.

Lemma testbit_to_uint8 (x i : Z) :
  0 <= i < 8 -> Z.testbit (to_uint8 x) i = Z.testbit x i.
Proof.
  intros Hi. unfold to_uint8. change 256 with (2 ^ 8).
  apply Z.mod_pow2_bits_low. lia.
Qed.

Lemma button_action_trace_bit (x b i : Z) (btn : Button) :
  0 <= i < 8 ->
  button_action_trace (to_uint8 x) b (2 ^ i) btn =
  if Z.testbit x i
  then [if Z.testbit b i then Mouse_press btn else Mouse_release btn]
  else [].
Proof.
  intros Hi. unfold button_action_trace.
  rewrite !land_pow2_eqb, testbit_to_uint8 by lia.
  destruct (Z.testbit x i), (Z.testbit b i); reflexivity.
Qed.

Lemma button_actions_trace_spec (b l : Z) :
  button_actions_trace (to_uint8 (Z.lxor b l)) b = spec_button_actions b l.
Proof.
  unfold button_actions_trace, spec_button_actions, button_order.
  change 0x01 with (2 ^ 0). change 0x02 with (2 ^ 1).
  change 0x04 with (2 ^ 2). change 0x08 with (2 ^ 3).
  change 0x10 with (2 ^ 4).
  rewrite !button_action_trace_bit by lia.
  cbn [flat_map fst snd]. rewrite app_nil_r. reflexivity.
Qed.

Lemma spec_button_actions_same (b : Z) : spec_button_actions b b = [].
Proof.
  unfold spec_button_actions. rewrite Z.lxor_nilpotent.
  cbn [button_order flat_map fst]. rewrite !Z.bits_0. reflexivity.
Qed.

Lemma button_actions_only_buttons (c b : Z) :
  forallb is_button (button_actions_trace c b) = true.
Proof.
  unfold button_actions_trace, button_action_trace.
  repeat (rewrite forallb_app; apply andb_true_iff; split);
    repeat match goal with
           | |- context [if ?c then _ else _] => destruct c
           end; reflexivity.
Qed.

Lemma connect_trace_filter (f : Event -> bool) (a m : esp_err_t)
  (mac peer : list Z) :
  (forall l, f (Serial_println l) = false) ->
  (forall p, f (esp_now_add_peer p) = false) ->
  (forall p, f (esp_now_mod_peer p) = false) ->
  filter f (connect_trace a m mac peer) = [].
Proof.
  intros H1 H2 H3. unfold connect_trace.
  destruct a; cbn [filter]; rewrite ?H1, ?H2, ?H3; reflexivity.
Qed.

Lemma mouseTask_body_filter (f : Event -> bool) (now : Z) (a m : esp_err_t)
  (it : QueueItem_t.t) (s : State) :
  (forall l, f (Serial_println l) = false) ->
  (forall p, f (esp_now_add_peer p) = false) ->
  (forall p, f (esp_now_mod_peer p) = false) ->
  filter f (trace_of (mouseTask_body now a m it s)) =
  if QueueItem_t.type it =? PACKET_TYPE_MOUSE_DATA
  then filter f (move_trace (QueueItem_t.deltaX it) (QueueItem_t.deltaY it)
                            (QueueItem_t.wheel it))
       ++ (if QueueItem_t.buttons it =? lastButtons s then []
           else filter f (button_actions_trace
                            (to_uint8 (Z.lxor (QueueItem_t.buttons it)
                                              (lastButtons s)))
                            (QueueItem_t.buttons it)))
  else [].
Proof.
  intros H1 H2 H3. rewrite mouseTask_body_trace, filter_app.
  assert (E : filter f (if isConnected s then []
                        else connect_trace a m (QueueItem_t.mac_addr it)
                                           (peerMacAddress s)) = []).
  { destruct (isConnected s);
      [reflexivity|apply connect_trace_filter; assumption]. }
  rewrite E. cbn [app].
  destruct (QueueItem_t.type it =? PACKET_TYPE_MOUSE_DATA); [|reflexivity].
  rewrite filter_app.
  destruct (QueueItem_t.buttons it =? lastButtons s); reflexivity.
Qed.

Lemma button_actions_no_move (c b : Z) :
  filter is_move (button_actions_trace c b) = [].
Proof.
  apply filter_idle.
  unfold button_actions_trace, button_action_trace.
  repeat (rewrite forallb_app; apply andb_true_iff; split);
    repeat match goal with
           | |- context [if ?c then _ else _] => destruct c
           end; reflexivity.
Qed.

Lemma move_trace_filter_move (dx dy w : Z) :
  filter is_move (move_trace dx dy w) = move_trace dx dy w.
Proof. unfold move_trace. destruct (_ && _); reflexivity. Qed.

Lemma move_trace_filter_button (dx dy w : Z) :
  filter is_button (move_trace dx dy w) = [].
Proof. unfold move_trace. destruct (_ && _); reflexivity. Qed.

(** The press and release events of one iteration. *)
Lemma mouseTask_body_buttons (now : Z) (a m : esp_err_t) (it : QueueItem_t.t)
  (s : State) :
  filter is_button (trace_of (mouseTask_body now a m it s)) =
  if QueueItem_t.type it =? PACKET_TYPE_MOUSE_DATA
  then spec_button_actions (QueueItem_t.buttons it) (lastButtons s)
  else [].
Proof.
  rewrite mouseTask_body_filter by reflexivity.
  destruct (QueueItem_t.type it =? PACKET_TYPE_MOUSE_DATA); [|reflexivity].
  rewrite move_trace_filter_button. cbn [app].
  destruct (Z.eqb_spec (QueueItem_t.buttons it) (lastButtons s)) as [E|E].
  - rewrite E, spec_button_actions_same. reflexivity.
  - rewrite filter_all by apply button_actions_only_buttons.
    apply button_actions_trace_spec.
Qed.

(** ** The HID translator *)

(** C6. For a MouseData entry the press and release events of the iteration
    are those of the specification's diff ([changed = buttons XOR lastMask],
    bits visited left, right, middle, back, forward, press when the new bit
    is set and release otherwise), and [lastButtons] becomes the new mask only
    when [changed] is not zero.  From [lastButtons = 0] an entry with
    [buttons = 0b00011] gives press(left), press(right) in that order and
    [lastButtons = 0b00011]. *)
Theorem button_diff_as_specified
  (now : Z) (a m : esp_err_t) (it : QueueItem_t.t) (s : State) :
  QueueItem_t.type it = PACKET_TYPE_MOUSE_DATA ->
  filter is_button (trace_of (mouseTask_body now a m it s)) =
    spec_button_actions (QueueItem_t.buttons it) (lastButtons s) /\
  lastButtons (state_of (mouseTask_body now a m it s)) =
    spec_next_mask (QueueItem_t.buttons it) (lastButtons s) /\
  (lastButtons s = 0 -> QueueItem_t.buttons it = 3 ->
   filter is_button (trace_of (mouseTask_body now a m it s)) =
     [Mouse_press MOUSE_LEFT; Mouse_press MOUSE_RIGHT] /\
   lastButtons (state_of (mouseTask_body now a m it s)) = 3).
Proof.
  intros Hty.
  assert (Hb : filter is_button (trace_of (mouseTask_body now a m it s)) =
               spec_button_actions (QueueItem_t.buttons it) (lastButtons s)).
  { rewrite mouseTask_body_buttons, Hty. reflexivity. }
  assert (Hl : lastButtons (state_of (mouseTask_body now a m it s)) =
               spec_next_mask (QueueItem_t.buttons it) (lastButtons s)).
  { rewrite mouseTask_body_state, Hty. unfold spec_next_mask.
    change (PACKET_TYPE_MOUSE_DATA =? PACKET_TYPE_MOUSE_DATA) with true.
    cbn [andb].
    destruct (Z.eqb_spec (QueueItem_t.buttons it) (lastButtons s)) as [E|E];
      cbn [negb].
    - rewrite E, Z.lxor_nilpotent. cbn [Z.eqb].
      unfold connected_state. destruct (isConnected s); reflexivity.
    - destruct (Z.eqb_spec (Z.lxor (QueueItem_t.buttons it) (lastButtons s)) 0)
        as [E0|E0]; [apply Z.lxor_eq in E0; contradiction|reflexivity]. }
  split; [exact Hb|]. split; [exact Hl|].
  intros H0 H3. rewrite Hb, Hl, H0, H3. split; reflexivity.
Qed.

Lemma button_diff_as_specified_witness :
  filter is_button
    (trace_of (mouseTask_body 10 ESP_OK ESP_OK
                 (item mac_A PACKET_TYPE_MOUSE_DATA 0 0 0 3) initial_state)) =
    [Mouse_press MOUSE_LEFT; Mouse_press MOUSE_RIGHT] /\
  lastButtons
    (state_of (mouseTask_body 10 ESP_OK ESP_OK
                 (item mac_A PACKET_TYPE_MOUSE_DATA 0 0 0 3) initial_state)) = 3.
Proof.
  apply (button_diff_as_specified 10 ESP_OK ESP_OK
           (item mac_A PACKET_TYPE_MOUSE_DATA 0 0 0 3) initial_state);
    reflexivity.
Defined.

(** C8. For a MouseData entry exactly one move event carrying the three raw
    values is emitted when one of them is not zero, and none when all three
    are zero; an entry with no movement whose [buttons] equal [lastButtons]
    emits no HID event at all (and, when already Connected, no event of any
    kind). *)
Theorem move_emitted_iff_nonzero
  (now : Z) (a m : esp_err_t) (it : QueueItem_t.t) (s : State) :
  QueueItem_t.type it = PACKET_TYPE_MOUSE_DATA ->
  (QueueItem_t.deltaX it <> 0 \/ QueueItem_t.deltaY it <> 0 \/
   QueueItem_t.wheel it <> 0 ->
   filter is_move (trace_of (mouseTask_body now a m it s)) =
     [Mouse_move (QueueItem_t.deltaX it) (QueueItem_t.deltaY it)
                 (QueueItem_t.wheel it)]) /\
  (QueueItem_t.deltaX it = 0 -> QueueItem_t.deltaY it = 0 ->
   QueueItem_t.wheel it = 0 ->
   filter is_move (trace_of (mouseTask_body now a m it s)) = [] /\
   (QueueItem_t.buttons it = lastButtons s ->
    filter is_hid (trace_of (mouseTask_body now a m it s)) = [] /\
    (isConnected s = true ->
     trace_of (mouseTask_body now a m it s) = []))).
Proof.
  intros Hty.
  assert (Hm : filter is_move (trace_of (mouseTask_body now a m it s)) =
               move_trace (QueueItem_t.deltaX it) (QueueItem_t.deltaY it)
                          (QueueItem_t.wheel it)).
  { rewrite mouseTask_body_filter, Hty by reflexivity.
    change (PACKET_TYPE_MOUSE_DATA =? PACKET_TYPE_MOUSE_DATA) with true.
    cbv iota. rewrite move_trace_filter_move, button_actions_no_move.
    destruct (_ =? lastButtons s); apply app_nil_r. }
  split.
  - intros Hnz. rewrite Hm. unfold move_trace.
    destruct (Z.eqb_spec (QueueItem_t.deltaX it) 0),
      (Z.eqb_spec (QueueItem_t.deltaY it) 0),
      (Z.eqb_spec (QueueItem_t.wheel it) 0); cbn [andb]; try reflexivity.
    exfalso. destruct Hnz as [H|[H|H]]; contradiction.
  - intros Hx Hy Hw. rewrite Hm.
    assert (Hmt : move_trace (QueueItem_t.deltaX it) (QueueItem_t.deltaY it)
                    (QueueItem_t.wheel it) = [])
      by (rewrite Hx, Hy, Hw; reflexivity).
    split; [exact Hmt|].
    intros Hb. rewrite mouseTask_body_trace, Hty, Hmt, Hb, !Z.eqb_refl.
    cbn [app]. rewrite app_nil_r. split.
    + destruct (isConnected s); [reflexivity|apply connect_trace_no_hid].
    + intros Hc. rewrite Hc. reflexivity.
Qed.

Lemma move_emitted_iff_nonzero_witness :
  filter is_move
    (trace_of (mouseTask_body 10 ESP_OK ESP_OK
                 (item mac_A PACKET_TYPE_MOUSE_DATA 300 (-2) 0 0)
                 initial_state)) = [Mouse_move 300 (-2) 0] /\
  filter is_hid
    (trace_of (mouseTask_body 10 ESP_OK ESP_OK
                 (item mac_A PACKET_TYPE_MOUSE_DATA 0 0 0 5)
                 (set_lastButtons 5 initial_state))) = [] /\
  trace_of (mouseTask_body 10 ESP_OK ESP_OK
              (item mac_A PACKET_TYPE_MOUSE_DATA 0 0 0 5)
              (set_isConnected true (set_lastButtons 5 initial_state))) = [].
Proof.
  split; [|split].
  - apply (move_emitted_iff_nonzero 10 ESP_OK ESP_OK
             (item mac_A PACKET_TYPE_MOUSE_DATA 300 (-2) 0 0) initial_state);
      [reflexivity|]. left. discriminate.
  - apply (move_emitted_iff_nonzero 10 ESP_OK ESP_OK
             (item mac_A PACKET_TYPE_MOUSE_DATA 0 0 0 5)
             (set_lastButtons 5 initial_state)); reflexivity.
  - apply (move_emitted_iff_nonzero 10 ESP_OK ESP_OK
             (item mac_A PACKET_TYPE_MOUSE_DATA 0 0 0 5)
             (set_isConnected true (set_lastButtons 5 initial_state)));
      reflexivity.
Defined.

(** C10. A Heartbeat entry emits no HID event and leaves [lastButtons] (and
    the queue and [lastBroadcastTime]) as they were, whatever its four payload
    fields hold: they are copied by the callback but the iteration does not
    depend on them.  When Connected the iteration only refreshes
    [lastPacketTime]; when Disconnected it performs in addition the connect
    transition. *)
Theorem heartbeat_only_refreshes
  (now : Z) (a m : esp_err_t) (it : QueueItem_t.t) (s : State) :
  QueueItem_t.type it = PACKET_TYPE_HEARTBEAT ->
  filter is_hid (trace_of (mouseTask_body now a m it s)) = [] /\
  lastButtons (state_of (mouseTask_body now a m it s)) = lastButtons s /\
  mouseTask_body now a m it s =
    (tt, connected_state now it s,
     if isConnected s then []
     else connect_trace a m (QueueItem_t.mac_addr it) (peerMacAddress s)) /\
  (forall dx dy w b,
     mouseTask_body now a m
       (QueueItem_t.mk (QueueItem_t.mac_addr it) PACKET_TYPE_HEARTBEAT
                       dx dy w b) s
     = mouseTask_body now a m it s) /\
  (forall mac data,
     frame_accepted data sizeof_UniversalPacket ->
     OnDataRecv_item mac data sizeof_UniversalPacket =
       Some (item_of_frame mac data)).
Proof.
  intros Hty.
  assert (Hall : forall it', QueueItem_t.type it' = PACKET_TYPE_HEARTBEAT ->
            mouseTask_body now a m it' s =
            (tt, connected_state now it' s,
             if isConnected s then []
             else connect_trace a m (QueueItem_t.mac_addr it')
                                (peerMacAddress s))).
  { intros it' Hty'.
    pose proof (mouseTask_body_state now a m it' s) as Hs.
    pose proof (mouseTask_body_trace now a m it' s) as Ht.
    rewrite Hty' in Hs, Ht.
    change (PACKET_TYPE_HEARTBEAT =? PACKET_TYPE_MOUSE_DATA) with false
      in Hs, Ht.
    cbn [andb] in Hs. cbv iota in Hs, Ht. rewrite app_nil_r in Ht.
    destruct (mouseTask_body now a m it' s) as [[[] s'] t].
    unfold state_of, trace_of in Hs, Ht. cbn [fst snd] in Hs, Ht.
    subst. reflexivity. }
  rewrite (Hall it Hty). unfold trace_of, state_of. cbn [fst snd].
  split; [|split; [|split; [|split]]].
  - destruct (isConnected s); [reflexivity|apply connect_trace_no_hid].
  - unfold connected_state. destruct (isConnected s); reflexivity.
  - reflexivity.
  - intros dx dy w b. rewrite Hall by reflexivity. reflexivity.
  - intros mac data H.
    destruct (OnDataRecv_item_spec mac data sizeof_UniversalPacket)
      as [[_ E]|[N _]]; [exact E|contradiction].
Qed.

Lemma heartbeat_only_refreshes_witness :
  mouseTask_body 99 ESP_OK ESP_OK
    (item mac_A PACKET_TYPE_HEARTBEAT 7 (-7) 1 31)
    (set_isConnected true (set_lastButtons 5 initial_state))
  = (tt,
     set_lastPacketTime 99
       (set_isConnected true (set_lastButtons 5 initial_state)),
     []).
Proof.
  apply (heartbeat_only_refreshes 99 ESP_OK ESP_OK
           (item mac_A PACKET_TYPE_HEARTBEAT 7 (-7) 1 31)
           (set_isConnected true (set_lastButtons 5 initial_state))).
  reflexivity.
Defined.

(** ** The cooperative loop *)

(** The 32-bit difference of line 280 and line 292 is the elapsed time when
    the earlier reading is not after the later one. *)
Lemma to_uint32_elapsed (now earlier : Z) :
  is_uint32 now -> 0 <= earlier <= now ->
  to_uint32 (now - earlier) = now - earlier.
Proof.
  unfold is_uint32, to_uint32. intros Hn He. apply Z.mod_small. lia.
Qed.

Lemma resetConnection_eq (d : esp_err_t) (s : State) :
  resetConnection d s =
  (tt,
   set_peerMacAddress (memset (peerMacAddress s) 0 6)
     (set_isConnected false s),
   reset_trace d (peerMacAddress s)).
Proof.
  unfold resetConnection, reset_trace, bind, emit, get, call, modify.
  destruct d; reflexivity.
Qed.

Lemma loop_eq (now now' : Z) (d : esp_err_t) (s : State) :
  loop now now' d s =
  if isConnected s then
    if to_uint32 (now - lastPacketTime s) >? CONNECTION_TIMEOUT
    then (tt,
          set_peerMacAddress (memset (peerMacAddress s) 0 6)
            (set_isConnected false s),
          reset_trace d (peerMacAddress s))
    else (tt, s, [])
  else
    if to_uint32 (now - lastBroadcastTime s) >=? 1000
    then (tt, set_lastBroadcastTime now' s, beacon_trace)
    else (tt, s, []).
Proof.
  unfold loop, bind at 1. unfold get at 1.
  destruct (isConnected s); cbn [negb].
  - unfold bind, get, when.
    destruct (to_uint32 (now - lastPacketTime s) >? CONNECTION_TIMEOUT).
    + rewrite resetConnection_eq. reflexivity.
    + reflexivity.
  - unfold bind at 1. unfold get at 1. unfold when.
    destruct (to_uint32 (now - lastBroadcastTime s) >=? 1000); reflexivity.
Qed.

(** C9. On a pass of [loop] in a Disconnected state with at least 1000 ms
    (in 32-bit unsigned arithmetic) since [lastBroadcastTime], exactly one
    frame is sent; it goes to the broadcast address, has the wire size, and
    decodes to a Discovery packet whose name is [MY_DEVICE_NAME] and whose
    deltaX, deltaY, wheel and buttons are zero.  With less than 1000 ms
    elapsed, and on every pass in a Connected state, nothing is sent. *)
Theorem discovery_beacon (now now' : Z) (d : esp_err_t) (s : State) :
  (isConnected s = false ->
   1000 <= to_uint32 (now - lastBroadcastTime s) ->
   exists payload,
     filter is_send (trace_of (loop now now' d s)) =
       [esp_now_send broadcastAddress payload sizeof_UniversalPacket] /\
     Z.of_nat (List.length payload) = sizeof_UniversalPacket /\
     UniversalPacket.type (packet_of_bytes payload) = PACKET_TYPE_DISCOVERY /\
     read_c_string (UniversalPacket.deviceName (packet_of_bytes payload)) =
       MY_DEVICE_NAME /\
     UniversalPacket.deltaX (packet_of_bytes payload) = 0 /\
     UniversalPacket.deltaY (packet_of_bytes payload) = 0 /\
     UniversalPacket.wheel (packet_of_bytes payload) = 0 /\
     UniversalPacket.buttons (packet_of_bytes payload) = 0) /\
  (isConnected s = false ->
   to_uint32 (now - lastBroadcastTime s) < 1000 ->
   filter is_send (trace_of (loop now now' d s)) = []) /\
  (isConnected s = true ->
   filter is_send (trace_of (loop now now' d s)) = []).
Proof.
  rewrite loop_eq. split; [|split].
  - intros Hc Ht. rewrite Hc.
    replace (to_uint32 (now - lastBroadcastTime s) >=? 1000) with true
      by (symmetry; apply Z.geb_le; exact Ht).
    exists (bytes_of_packet discoveryPacket).
    repeat split.
  - intros Hc Ht. rewrite Hc.
    replace (to_uint32 (now - lastBroadcastTime s) >=? 1000) with false
      by (symmetry; rewrite Z.geb_leb; apply Z.leb_gt; exact Ht).
    reflexivity.
  - intros Hc. rewrite Hc.
    destruct (to_uint32 (now - lastPacketTime s) >? CONNECTION_TIMEOUT);
      [|reflexivity].
    unfold trace_of, reset_trace. cbn [snd filter is_send]. reflexivity.
Qed.

Lemma discovery_beacon_witness :
  (exists payload,
     filter is_send (trace_of (loop 1000 1001 ESP_OK initial_state)) =
       [esp_now_send broadcastAddress payload sizeof_UniversalPacket] /\
     Z.of_nat (List.length payload) = sizeof_UniversalPacket /\
     UniversalPacket.type (packet_of_bytes payload) = PACKET_TYPE_DISCOVERY /\
     read_c_string (UniversalPacket.deviceName (packet_of_bytes payload)) =
       MY_DEVICE_NAME /\
     UniversalPacket.deltaX (packet_of_bytes payload) = 0 /\
     UniversalPacket.deltaY (packet_of_bytes payload) = 0 /\
     UniversalPacket.wheel (packet_of_bytes payload) = 0 /\
     UniversalPacket.buttons (packet_of_bytes payload) = 0) /\
  filter is_send (trace_of (loop 999 999 ESP_OK initial_state)) = [] /\
  filter is_send
    (trace_of (loop 5000 5000 ESP_OK (set_isConnected true initial_state)))
    = [].
Proof.
  split; [|split].
  - apply (discovery_beacon 1000 1001 ESP_OK initial_state);
      [reflexivity|vm_compute; discriminate].
  - apply (proj1 (proj2 (discovery_beacon 999 999 ESP_OK initial_state)));
      reflexivity.
  - apply (proj2 (proj2 (discovery_beacon 5000 5000 ESP_OK
                           (set_isConnected true initial_state))));
      reflexivity.
Defined.

Lemma OnDataRecv_outcome (mac data : list Z) (data_len : Z) (s : State) :
  trace_of (OnDataRecv mac data data_len s) = [] /\
  (state_of (OnDataRecv mac data data_len s) = s \/
   state_of (OnDataRecv mac data data_len s) =
     set_queue (mouseDataQueue s ++ [item_of_frame mac data]) s).
Proof.
  unfold OnDataRecv.
  destruct (OnDataRecv_item_spec mac data data_len) as [[_ E]|[_ E]];
    rewrite E.
  - unfold xQueueSendFromISR, modify, trace_of, state_of. cbn [fst snd].
    destruct (_ <? _)%nat; auto.
  - split; [reflexivity|left; reflexivity].
Qed.

Lemma mouseTask_body_connected (now : Z) (a m : esp_err_t)
  (it : QueueItem_t.t) (s : State) :
  isConnected (state_of (mouseTask_body now a m it s)) = true.
Proof.
  rewrite mouseTask_body_state. unfold connected_state.
  destruct (_ && _), (isConnected s) eqn:E; cbn; try exact E; reflexivity.
Qed.

Lemma mouseTask_body_peer (now : Z) (a m : esp_err_t)
  (it : QueueItem_t.t) (s : State) :
  peerMacAddress (state_of (mouseTask_body now a m it s)) =
  if isConnected s then peerMacAddress s
  else memcpy (peerMacAddress s) (QueueItem_t.mac_addr it) 6.
Proof.
  rewrite mouseTask_body_state. unfold connected_state.
  destruct (_ && _), (isConnected s); reflexivity.
Qed.

Lemma mouseTask_body_queue (now : Z) (a m : esp_err_t)
  (it : QueueItem_t.t) (s : State) :
  mouseDataQueue (state_of (mouseTask_body now a m it s)) = mouseDataQueue s.
Proof.
  rewrite mouseTask_body_state. unfold connected_state.
  destruct (_ && _), (isConnected s); reflexivity.
Qed.

(** C2. In a Connected state, a pass of [loop] that finds more than
    [CONNECTION_TIMEOUT] = 3000 ms (in 32-bit unsigned arithmetic) since
    [lastPacketTime] issues exactly one peer-removal request, for the bound
    address, zeroes [peerMacAddress] and leaves the state Disconnected, so
    that the following pass removes nothing; and an operation that takes a
    Connected state to a Disconnected one can only be such a pass of
    [loop]. *)
Theorem only_timeout_disconnects (s : State) :
  isConnected s = true ->
  List.length (peerMacAddress s) = 6%nat ->
  (forall now now' d,
     CONNECTION_TIMEOUT < to_uint32 (now - lastPacketTime s) ->
     filter is_del_peer (trace_of (loop now now' d s)) =
       [esp_now_del_peer (peerMacAddress s)] /\
     peerMacAddress (state_of (loop now now' d s)) = repeat 0 6 /\
     isConnected (state_of (loop now now' d s)) = false /\
     (forall t t' d',
        filter is_del_peer
          (trace_of (loop t t' d' (state_of (loop now now' d s)))) = [])) /\
  (forall op s' tr,
     exec op s = Some (s', tr) ->
     isConnected s' = false ->
     exists now now' d,
       op = LoopPass now now' d /\
       CONNECTION_TIMEOUT < to_uint32 (now - lastPacketTime s)).
Proof.
  intros Hc Hlen. split.
  - intros now now' d Ht.
    rewrite loop_eq, Hc.
    replace (to_uint32 (now - lastPacketTime s) >? CONNECTION_TIMEOUT)
      with true by (symmetry; apply Z.gtb_lt; exact Ht).
    unfold state_of, trace_of. cbn [fst snd].
    split; [reflexivity|]. split.
    + cbn [peerMacAddress set_peerMacAddress].
      apply memset_whole. exact Hlen.
    + split; [reflexivity|].
      intros t t' d'. rewrite loop_eq.
      cbn [isConnected set_peerMacAddress set_isConnected].
      destruct (_ >=? 1000); reflexivity.
  - intros op s' tr Hex Hd. destruct op as [mac data len|now a m|now now' d].
    + exfalso. cbn [exec] in Hex. injection Hex as Hs _.
      destruct (OnDataRecv_outcome mac data len s) as [_ [E|E]];
        unfold outcome in Hs; cbn [fst] in Hs; rewrite E in Hs; subst s';
        cbn in Hd; congruence.
    + exfalso. cbn [exec] in Hex. unfold mouseTask_iteration in Hex.
      destruct (mouseDataQueue s) as [|it rest]; [discriminate|].
      cbn [option_map] in Hex. injection Hex as Hs _. subst s'.
      unfold outcome in Hd. cbn [fst] in Hd.
      rewrite mouseTask_body_connected in Hd. discriminate.
    + exists now, now', d. split; [reflexivity|].
      cbn [exec] in Hex. injection Hex as Hs _. subst s'.
      unfold outcome in Hd. cbn [fst] in Hd.
      rewrite loop_eq, Hc in Hd.
      destruct (Z.gtb_spec (to_uint32 (now - lastPacketTime s))
                  CONNECTION_TIMEOUT) as [Hlt|Hge]; [exact Hlt|].
      unfold state_of in Hd. cbn [fst snd] in Hd. congruence.
Qed.

Lemma only_timeout_disconnects_witness :
  filter is_del_peer
    (trace_of (loop 3008 3008 ESP_OK
                 (mkState [] true 7 mac_A 0 0))) = [esp_now_del_peer mac_A] /\
  peerMacAddress
    (state_of (loop 3008 3008 ESP_OK (mkState [] true 7 mac_A 0 0)))
    = repeat 0 6 /\
  isConnected
    (state_of (loop 3008 3008 ESP_OK (mkState [] true 7 mac_A 0 0))) = false.
Proof.
  destruct (only_timeout_disconnects (mkState [] true 7 mac_A 0 0)
              eq_refl eq_refl) as [H _].
  destruct (H 3008 3008 ESP_OK) as (H1 & H2 & H3 & _).
  - vm_compute. reflexivity.
  - exact (conj H1 (conj H2 H3)).
Defined.

(** ** Reachable states *)

Lemma item_of_frame_mac (mac data : list Z) :
  List.length mac = 6%nat -> QueueItem_t.mac_addr (item_of_frame mac data) = mac.
Proof.
  intros H. unfold item_of_frame. cbn [QueueItem_t.mac_addr].
  apply memcpy_whole; [exact H|reflexivity].
Qed.

Lemma frame_bytes_valid (ty dx dy w b : Z) :
  Forall is_uint8 (frame ty dx dy w b).
Proof.
  unfold frame, bytes_of_packet. cbn.
  repeat constructor; unfold is_uint8;
    try (apply Z.mod_pos_bound; lia); lia.
Qed.

(** Running the statements of one iteration, or of one pass, without
    interruption gives what the embedded functions give. *)
Lemma connect_trace_split (a m : esp_err_t) (mac peer : list Z) :
  connect_trace a m mac peer =
  Serial_println (LogFirstPacket mac)
  :: register_trace a m (memcpy peer mac 6).
Proof. reflexivity. Qed.

Lemma task_steps_are_iteration (now : Z) (a m : esp_err_t) (g : State)
  (it : QueueItem_t.t) (rest : list QueueItem_t.t) :
  mouseDataQueue g = it :: rest ->
  task_steps (if isConnected g then 4 else 7) now a m g TaskBlocked =
  Some (TaskBlocked,
        state_of (mouseTask_body now a m it (set_queue rest g)),
        trace_of (mouseTask_body now a m it (set_queue rest g))).
Proof.
  intros Hq.
  rewrite mouseTask_body_eq, after_refresh_state, after_refresh_trace.
  cbn [isConnected peerMacAddress set_lastPacketTime set_queue].
  destruct (isConnected g) eqn:Hc;
    repeat (progress
              (cbn [task_steps task_step isConnected peerMacAddress
                    set_queue set_lastPacketTime set_peerMacAddress
                    set_isConnected app];
               rewrite ?Hq, ?Hc));
    rewrite ?app_nil_r.
  - reflexivity.
  - rewrite connect_trace_split. reflexivity.
Qed.

Lemma loop_steps_are_pass (now now' : Z) (d : esp_err_t) (g : State) :
  loop_steps
    (if isConnected g
     then if to_uint32 (now - lastPacketTime g) >? CONNECTION_TIMEOUT
          then 5 else 2
     else 1) now now' d g LoopIdle =
  (LoopIdle, state_of (loop now now' d g), trace_of (loop now now' d g)).
Proof.
  rewrite (loop_eq now now' d g).
  destruct (isConnected g) eqn:Hc.
  - destruct (to_uint32 (now - lastPacketTime g) >? CONNECTION_TIMEOUT) eqn:Ht;
      repeat (progress
                (cbn [loop_steps loop_step lastPacketTime isConnected
                      set_isConnected app];
                 rewrite ?Hc, ?Ht));
      reflexivity.
  - cbn [loop_steps loop_step]. rewrite Hc, (loop_eq now now' d g), Hc.
    destruct (_ >=? 1000); reflexivity.
Qed.

Lemma sys_step_invariant (mv : Move) (y y' : Sys) (tr : list Event) :
  valid_move mv -> sys_step mv y = Some (y', tr) ->
  sys_invariant y -> sys_invariant y'.
Proof.
  intros Hv Hst (Hlen & Hq & Hz).
  destruct y as [g tpc lpc]. cbn [globals task_pc loop_pc] in *.
  destruct mv as [mac data len|now a m|now now' d]; cbn [sys_step] in Hst;
    cbn [globals task_pc loop_pc] in Hst.
  - (* a frame arrives *)
    injection Hst as <- _. destruct Hv as (Hm & _).
    unfold sys_invariant, between_writes in *.
    cbn [globals task_pc loop_pc] in *.
    destruct (OnDataRecv_outcome mac data len g) as [_ [E|E]]; rewrite E.
    + repeat split; assumption.
    + cbn [peerMacAddress isConnected mouseDataQueue set_queue].
      split; [exact Hlen|]. split; [|exact Hz].
      rewrite app_assoc. apply Forall_app. split; [exact Hq|].
      constructor; [|constructor].
      rewrite item_of_frame_mac by exact Hm. exact Hm.
  - (* a statement of mouseTask *)
    unfold sys_invariant, between_writes in *.
    cbn [globals task_pc loop_pc] in *.
    destruct tpc as [|it|it|it|it|it|it]; cbn [task_step] in Hst.
    + destruct (mouseDataQueue g) as [|it rest] eqn:Eq; [discriminate|].
      injection Hst as <- _. cbn [globals task_pc loop_pc task_item app
        peerMacAddress isConnected mouseDataQueue set_queue] in *.
      repeat split; assumption.
    + injection Hst as <- _. cbn [globals task_pc loop_pc task_item app
        peerMacAddress isConnected mouseDataQueue set_lastPacketTime] in *.
      repeat split; assumption.
    + injection Hst as <- _. cbn [globals task_pc loop_pc] in *.
      destruct (isConnected g); cbn [task_item app] in *;
        repeat split; assumption.
    + injection Hst as <- _. cbn [globals task_pc loop_pc task_item app
        peerMacAddress isConnected mouseDataQueue set_peerMacAddress orb]
        in *.
      inversion Hq as [|? ? Hit Hrest]; subst.
      rewrite memcpy_whole by assumption.
      split; [exact Hit|]. split; [exact Hq|]. discriminate.
    + injection Hst as <- _. cbn [globals task_pc loop_pc task_item app orb]
        in *.
      split; [exact Hlen|]. split; [exact Hq|]. discriminate.
    + injection Hst as <- _. cbn [globals task_pc loop_pc task_item app
        peerMacAddress isConnected mouseDataQueue set_isConnected] in *.
      split; [exact Hlen|]. split; [exact Hq|]. discriminate.
    + injection Hst as <- _. cbn [globals task_pc loop_pc task_item app] in *.
      destruct (dispatch_frame it g) as (Eq & Ei & _ & Ep & _).
      rewrite Eq, Ei, Ep.
      inversion Hq as [|? ? Hit Hrest]; subst.
      split; [exact Hlen|]. split; [exact Hrest|exact Hz].
  - (* a statement of loop *)
    unfold sys_invariant, between_writes in *.
    cbn [globals task_pc loop_pc] in *.
    destruct lpc; cbn [loop_step] in Hst.
    + destruct (isConnected g) eqn:Hc.
      * injection Hst as <- _. cbn [globals task_pc loop_pc] in *.
        rewrite Hc. split; [exact Hlen|]. split; [exact Hq|]. discriminate.
      * injection Hst as <- _. cbn [globals task_pc loop_pc] in *.
        rewrite (loop_eq now now' d g), Hc.
        destruct (_ >=? 1000); unfold state_of; cbn [fst snd
          peerMacAddress isConnected mouseDataQueue set_lastBroadcastTime];
          rewrite ?Hc; repeat split; try assumption.
    + destruct (_ >? CONNECTION_TIMEOUT); injection Hst as <- _;
        cbn [globals task_pc loop_pc] in *; repeat split; assumption.
    + injection Hst as <- _. cbn [globals task_pc loop_pc] in *.
      repeat split; assumption.
    + injection Hst as <- _. cbn [globals task_pc loop_pc peerMacAddress
        isConnected mouseDataQueue set_isConnected] in *.
      split; [exact Hlen|]. split; [exact Hq|].
      intros _ N. rewrite orb_true_r in N. discriminate N.
    + injection Hst as <- _. cbn [globals task_pc loop_pc peerMacAddress
        isConnected mouseDataQueue set_peerMacAddress] in *.
      rewrite memset_whole by exact Hlen.
      split; [reflexivity|]. split; [exact Hq|]. reflexivity.
Qed.

Lemma sys_reachable_invariant (y : Sys) : sys_reachable y -> sys_invariant y.
Proof.
  intros H. induction H as [|y mv y' tr _ IH Hv Hst].
  - repeat split. constructor.
  - eapply sys_step_invariant; eauto.
Qed.

Lemma sys_run_reachable (mvs : list Move) :
  Forall valid_move mvs ->
  forall y y' tr, sys_reachable y -> sys_run mvs y = Some (y', tr) ->
  sys_reachable y'.
Proof.
  induction 1 as [|mv mvs Hmv _ IH]; intros y y' tr Hr Hrun.
  - cbn in Hrun. injection Hrun as <- _. exact Hr.
  - cbn [sys_run] in Hrun.
    destruct (sys_step mv y) as [[y1 t1]|] eqn:Hst; [|discriminate].
    destruct (sys_run mvs y1) as [[y2 t2]|] eqn:Hrest; [|discriminate].
    injection Hrun as <- _.
    eapply IH; [|exact Hrest]. eapply sys_reachable_step; eauto.
Qed.

Lemma heartbeat_arrival_valid (mac : list Z) :
  List.length mac = 6%nat -> Forall is_uint8 mac ->
  valid_move (Arrive mac (frame PACKET_TYPE_HEARTBEAT 0 0 0 0) 42).
Proof.
  intros Hl Hb. cbn [valid_move].
  split; [exact Hl|]. split; [exact Hb|].
  split; [apply frame_bytes_valid|reflexivity].
Qed.

Lemma small_times_valid (now now' : Z) (a m d : esp_err_t) :
  0 <= now < 10000 -> 0 <= now' < 10000 ->
  valid_move (TaskStep now a m) /\ valid_move (LoopStep now now' d).
Proof.
  intros H H'. cbn [valid_move]. unfold is_uint32.
  change (2 ^ 32) with 4294967296. lia.
Qed.

(** A Heartbeat from the all-zero sender address, processed from power-up. *)
Lemma reachable_zero_sender_example :
  sys_reachable
    (mkSys (mkState [] true 5 (repeat 0 6) 0 0) TaskBlocked LoopIdle).
Proof.
  apply (sys_run_reachable
           (Arrive (repeat 0 6) (frame PACKET_TYPE_HEARTBEAT 0 0 0 0) 42
            :: repeat (TaskStep 5 ESP_OK ESP_OK) 7)) with
    (y := initial_sys)
    (tr := [Serial_println (LogFirstPacket (repeat 0 6));
            esp_now_add_peer
              (mk_peer (repeat 0 6) WIFI_CHANNEL false WIFI_IF_STA);
            Serial_println LogPeerAdded]).
  - apply Forall_cons.
    + apply heartbeat_arrival_valid; [reflexivity|]. cbn [repeat].
      bytes_in_range.
    + cbn [repeat].
      repeat (apply Forall_cons;
              [apply (small_times_valid 5 5 ESP_OK ESP_OK ESP_OK); lia|]).
      apply Forall_nil.
  - constructor.
  - reflexivity.
Qed.

(** A peer connected, then timed out and reset. *)
Lemma reachable_reset_example :
  sys_reachable
    (mkSys (mkState [] false 7 (repeat 0 6) 0 0) TaskBlocked LoopIdle).
Proof.
  apply (sys_run_reachable
           (Arrive mac_A (frame PACKET_TYPE_HEARTBEAT 0 0 0 0) 42
            :: repeat (TaskStep 7 ESP_OK ESP_OK) 7
            ++ repeat (LoopStep 3008 3008 ESP_OK) 5)) with
    (y := initial_sys)
    (tr := [Serial_println (LogFirstPacket mac_A);
            esp_now_add_peer (mk_peer mac_A WIFI_CHANNEL false WIFI_IF_STA);
            Serial_println LogPeerAdded;
            Serial_println LogTimeoutReset;
            esp_now_del_peer mac_A;
            Serial_println LogPeerDeleted;
            Serial_println LogBackToBroadcast;
            Serial_println LogSeparator]).
  - apply Forall_cons.
    + apply heartbeat_arrival_valid; [reflexivity|]. unfold mac_A.
      bytes_in_range.
    + cbn [repeat app].
      repeat (apply Forall_cons;
              [first
                 [apply (small_times_valid 7 7 ESP_OK ESP_OK ESP_OK); lia
                 |apply (small_times_valid 3008 3008 ESP_OK ESP_OK ESP_OK);
                  lia]|]).
      apply Forall_nil.
  - constructor.
  - reflexivity.
Qed.

(** The connect transition of a second frame running between the two writes
    of the reset (l.230 and l.231): the address it stores is zeroed by the
    reset that resumes, and the system comes to rest Connected with an
    all-zero peer address although the sender address is not zero. *)
Lemma reset_race_example :
  sys_reachable
    (mkSys (mkState [] true 3009 (repeat 0 6) 0 0) TaskBlocked LoopIdle).
Proof.
  apply (sys_run_reachable
           (Arrive mac_A (frame PACKET_TYPE_HEARTBEAT 0 0 0 0) 42
            :: repeat (TaskStep 7 ESP_OK ESP_OK) 7
            ++ repeat (LoopStep 3008 3008 ESP_OK) 4
            ++ Arrive mac_A (frame PACKET_TYPE_HEARTBEAT 0 0 0 0) 42
            :: repeat (TaskStep 3009 ESP_OK ESP_OK) 7
            ++ [LoopStep 3008 3008 ESP_OK])) with
    (y := initial_sys)
    (tr := [Serial_println (LogFirstPacket mac_A);
            esp_now_add_peer (mk_peer mac_A WIFI_CHANNEL false WIFI_IF_STA);
            Serial_println LogPeerAdded;
            Serial_println LogTimeoutReset;
            esp_now_del_peer mac_A;
            Serial_println LogPeerDeleted;
            Serial_println (LogFirstPacket mac_A);
            esp_now_add_peer (mk_peer mac_A WIFI_CHANNEL false WIFI_IF_STA);
            Serial_println LogPeerAdded;
            Serial_println LogBackToBroadcast;
            Serial_println LogSeparator]).
  - apply Forall_cons.
    + apply heartbeat_arrival_valid; [reflexivity|]. unfold mac_A.
      bytes_in_range.
    + cbn [repeat app].
      repeat (apply Forall_cons;
              [first
                 [apply (small_times_valid 7 7 ESP_OK ESP_OK ESP_OK); lia
                 |apply (small_times_valid 3008 3008 ESP_OK ESP_OK ESP_OK);
                  lia
                 |apply (small_times_valid 3009 3009 ESP_OK ESP_OK ESP_OK);
                  lia
                 |apply heartbeat_arrival_valid;
                  [reflexivity|unfold mac_A; bytes_in_range]]|]).
      apply Forall_nil.
  - constructor.
  - reflexivity.
Qed.

(** C3, as the claim states it, fails: a Heartbeat frame whose sender address
    is 00:00:00:00:00:00 connects, and the state that results, reachable and
    between operations, is Connected with an all-zero [peerMacAddress]. *)
Lemma zero_sender_breaks_iff :
  sys_reachable
    (mkSys (mkState [] true 5 (repeat 0 6) 0 0) TaskBlocked LoopIdle) /\
  quiescent
    (mkSys (mkState [] true 5 (repeat 0 6) 0 0) TaskBlocked LoopIdle) /\
  ~ (peerMacAddress (mkState [] true 5 (repeat 0 6) 0 0) = repeat 0 6 <->
     isConnected (mkState [] true 5 (repeat 0 6) 0 0) = false).
Proof.
  split; [exact reachable_zero_sender_example|].
  split; [split; reflexivity|].
  intros [H _]. specialize (H eq_refl). discriminate H.
Qed.

(** C3, amended. In every state that the callback, the task and the loop can
    reach from power-up, advancing statement by statement in any order, a
    Disconnected phase has an all-zero [peerMacAddress] whenever no context
    stands between the two writes of a transition; in particular in every
    state between operations. *)
Theorem disconnected_has_zero_peer (y : Sys) :
  sys_reachable y ->
  isConnected (globals y) = false ->
  (between_writes y = false -> peerMacAddress (globals y) = repeat 0 6) /\
  (quiescent y -> peerMacAddress (globals y) = repeat 0 6).
Proof.
  intros Hr Hc.
  destruct (sys_reachable_invariant y Hr) as (_ & _ & Hz).
  split; [exact (Hz Hc)|].
  intros [Ht Hl]. apply (Hz Hc).
  unfold between_writes. rewrite Ht, Hl. reflexivity.
Qed.

Lemma disconnected_has_zero_peer_witness :
  peerMacAddress (mkState [] false 7 (repeat 0 6) 0 0) = repeat 0 6.
Proof.
  apply (proj2 (disconnected_has_zero_peer
                  (mkSys (mkState [] false 7 (repeat 0 6) 0 0)
                         TaskBlocked LoopIdle)
                  reachable_reset_example eq_refl)).
  split; reflexivity.
Defined.

(** ** The stored button mask over a run *)

Lemma mouseTask_run_cons (d : Delivery) (ds : list Delivery) (s : State) :
  state_of (mouseTask_run (d :: ds) s) =
    state_of (mouseTask_run ds
      (state_of (mouseTask_body (at_time d) (add_answer d) (mod_answer d)
                                (entry d) s))) /\
  trace_of (mouseTask_run (d :: ds) s) =
    trace_of (mouseTask_body (at_time d) (add_answer d) (mod_answer d)
                             (entry d) s)
    ++ trace_of (mouseTask_run ds
         (state_of (mouseTask_body (at_time d) (add_answer d) (mod_answer d)
                                   (entry d) s))).
Proof.
  cbn [mouseTask_run]. unfold bind.
  destruct (mouseTask_body _ _ _ _ s) as [[[] s1] t1].
  unfold state_of, trace_of. cbn [fst snd].
  destruct (mouseTask_run ds s1) as [[[] s2] t2].
  split; reflexivity.
Qed.

Lemma held_after_trace_buttons (tr : list Event) (held : Z) :
  held_after_trace held tr = held_after_trace held (filter is_button tr).
Proof.
  unfold held_after_trace. revert held.
  induction tr as [|e tr IH]; intros held; [reflexivity|].
  destruct e; cbn [filter is_button fold_left held_after]; apply IH.
Qed.

Lemma uint8_cases (P : Z -> Prop) :
  (forall n, In n (seq 0 256) -> P (Z.of_nat n)) ->
  forall z, is_uint8 z -> P z.
Proof.
  intros H z Hz. unfold is_uint8 in Hz.
  rewrite <- (Z2Nat.id z) by lia. apply H. apply in_seq. lia.
Qed.

(** Replaying the diff of [b] against [l] on the held buttons [l & 0x1F]
    gives [b & 0x1F]; checked on the 256 x 256 byte values. *)
Lemma diff_replay_bytes (b l : Z) :
  is_uint8 b -> is_uint8 l ->
  held_after_trace (Z.land l 0x1F) (spec_button_actions b l) = Z.land b 0x1F.
Proof.
  intros Hb Hl. revert l Hl. revert b Hb.
  apply (uint8_cases (fun b => forall l, is_uint8 l ->
           held_after_trace (Z.land l 0x1F) (spec_button_actions b l) =
           Z.land b 0x1F)).
  intros nb Hnb.
  apply (uint8_cases (fun l =>
           held_after_trace (Z.land l 0x1F)
             (spec_button_actions (Z.of_nat nb) l) =
           Z.land (Z.of_nat nb) 0x1F)).
  intros nl Hnl. apply Z.eqb_eq.
  assert (Hall :
    forallb (fun nb =>
      forallb (fun nl =>
        held_after_trace (Z.land (Z.of_nat nl) 0x1F)
          (spec_button_actions (Z.of_nat nb) (Z.of_nat nl))
        =? Z.land (Z.of_nat nb) 0x1F) (seq 0 256)) (seq 0 256) = true)
    by (vm_compute; reflexivity).
  rewrite forallb_forall in Hall. specialize (Hall nb Hnb).
  rewrite forallb_forall in Hall. exact (Hall nl Hnl).
Qed.

Lemma mouse_data_lastButtons (now : Z) (a m : esp_err_t)
  (it : QueueItem_t.t) (s : State) :
  QueueItem_t.type it = PACKET_TYPE_MOUSE_DATA ->
  lastButtons (state_of (mouseTask_body now a m it s)) = QueueItem_t.buttons it.
Proof.
  intros Hty. rewrite mouseTask_body_state, Hty.
  change (PACKET_TYPE_MOUSE_DATA =? PACKET_TYPE_MOUSE_DATA) with true.
  cbn [andb]. unfold connected_state.
  destruct (Z.eqb_spec (QueueItem_t.buttons it) (lastButtons s)) as [E|E];
    destruct (isConnected s); cbn; congruence.
Qed.

(** C7, as the claim states it, fails: a MouseData entry whose [buttons] byte
    is [0x20] leaves [lastButtons = 0x20], whose upper three bits are not
    zero, although no press or release was emitted for it. *)
Lemma upper_bits_are_stored :
  mouse_data_delivery
    (mkDelivery 10 ESP_OK ESP_OK
                (item mac_A PACKET_TYPE_MOUSE_DATA 0 0 0 0x20)) /\
  Z.shiftr
    (lastButtons
       (state_of
          (mouseTask_run
             [mkDelivery 10 ESP_OK ESP_OK
                         (item mac_A PACKET_TYPE_MOUSE_DATA 0 0 0 0x20)]
             initial_state))) 5 <> 0 /\
  filter is_button
    (trace_of
       (mouseTask_run
          [mkDelivery 10 ESP_OK ESP_OK
                      (item mac_A PACKET_TYPE_MOUSE_DATA 0 0 0 0x20)]
          initial_state)) = [].
Proof.
  split; [|split].
  - split; [reflexivity|]. unfold is_uint8. cbn. lia.
  - vm_compute. discriminate.
  - reflexivity.
Qed.

(** C7, amended. Over every sequence of MouseData entries with 8-bit
    [buttons] fields, [lastButtons] is the raw 8-bit [buttons] byte of the
    most recent entry (the initial value when there was none), upper three
    bits included; its low five bits are the buttons held on the host after
    the press and release events emitted so far. *)
Theorem lastButtons_is_last_raw_byte (ds : list Delivery) (s : State) :
  Forall mouse_data_delivery ds ->
  is_uint8 (lastButtons s) ->
  lastButtons (state_of (mouseTask_run ds s)) =
    last_buttons_of ds (lastButtons s) /\
  is_uint8 (lastButtons (state_of (mouseTask_run ds s))) /\
  Z.land (lastButtons (state_of (mouseTask_run ds s))) 0x1F =
    held_after_trace (Z.land (lastButtons s) 0x1F)
                     (trace_of (mouseTask_run ds s)).
Proof.
  intros Hds. revert s.
  induction Hds as [|d ds [Hty Hb] _ IH]; intros s Hs.
  - repeat split; try exact Hs; apply Hs.
  - destruct (mouseTask_run_cons d ds s) as [Est Etr].
    rewrite Est, Etr.
    set (s1 := state_of (mouseTask_body (at_time d) (add_answer d)
                           (mod_answer d) (entry d) s)) in *.
    assert (Hl1 : lastButtons s1 = QueueItem_t.buttons (entry d))
      by (apply mouse_data_lastButtons; exact Hty).
    assert (Hs1 : is_uint8 (lastButtons s1)) by (rewrite Hl1; exact Hb).
    destruct (IH s1 Hs1) as (I1 & I2 & I3).
    split; [|split; [exact I2|]].
    + rewrite I1, Hl1. reflexivity.
    + rewrite I3. unfold held_after_trace at 2. rewrite fold_left_app.
      fold (held_after_trace (Z.land (lastButtons s) 0x1F)
              (trace_of (mouseTask_body (at_time d) (add_answer d)
                           (mod_answer d) (entry d) s))).
      rewrite (held_after_trace_buttons (trace_of (mouseTask_body _ _ _ _ _))).
      rewrite mouseTask_body_buttons, Hty.
      change (PACKET_TYPE_MOUSE_DATA =? PACKET_TYPE_MOUSE_DATA) with true.
      cbv iota. rewrite diff_replay_bytes by assumption.
      rewrite Hl1. reflexivity.
Qed.

Lemma lastButtons_is_last_raw_byte_witness :
  lastButtons
    (state_of
       (mouseTask_run
          [mkDelivery 10 ESP_OK ESP_OK
                      (item mac_A PACKET_TYPE_MOUSE_DATA 0 0 0 0x03);
           mkDelivery 20 ESP_OK ESP_OK
                      (item mac_A PACKET_TYPE_MOUSE_DATA 0 0 0 0xE1)]
          initial_state)) = 0xE1.
Proof.
  apply (lastButtons_is_last_raw_byte
           [mkDelivery 10 ESP_OK ESP_OK
                       (item mac_A PACKET_TYPE_MOUSE_DATA 0 0 0 0x03);
            mkDelivery 20 ESP_OK ESP_OK
                       (item mac_A PACKET_TYPE_MOUSE_DATA 0 0 0 0xE1)]
           initial_state).
  - repeat constructor; cbn; lia.
  - unfold is_uint8. cbn. lia.
Defined.

(** * Further properties of the code *)

(** ** The inbound queue *)

Lemma OnDataRecv_eq (mac data : list Z) (data_len : Z) (s : State) :
  OnDataRecv mac data data_len s =
  (tt,
   match OnDataRecv_item mac data data_len with
   | Some it =>
       if (List.length (mouseDataQueue s) <? QUEUE_LENGTH)%nat
       then set_queue (mouseDataQueue s ++ [it]) s else s
   | None => s
   end,
   []).
Proof.
  unfold OnDataRecv.
  destruct (OnDataRecv_item mac data data_len); reflexivity.
Qed.

Lemma set_queue_same (s : State) : set_queue (mouseDataQueue s) s = s.
Proof. destruct s; reflexivity. Qed.

Lemma set_queue_twice (q q' : list QueueItem_t.t) (s : State) :
  set_queue q (set_queue q' s) = set_queue q s.
Proof. reflexivity. Qed.

Lemma firstn_full_app {A} (n : nat) (q l : list A) :
  List.length q = n -> firstn n (q ++ l) = q.
Proof.
  intros H. rewrite firstn_app, H, Nat.sub_diag, firstn_O, app_nil_r.
  apply firstn_all2. lia.
Qed.

(** X2. A burst of frames fills the queue in arrival order and the overflow
    is dropped from the tail: after any sequence of callback invocations the
    queue is the first twenty of the old entries followed by the entries
    offered for the frames, nothing else in the state has changed and no
    event was produced. *)
Theorem frames_enqueue_in_arrival_order (fs : list RawFrame) (s : State) :
  (List.length (mouseDataQueue s) <= QUEUE_LENGTH)%nat ->
  run (map recv_op fs) s =
  Some (set_queue
          (firstn QUEUE_LENGTH (mouseDataQueue s ++ flat_map offered fs)) s,
        []).
Proof.
  revert s. induction fs as [|f fs IH]; intros s Hb.
  - cbn [map run flat_map]. rewrite app_nil_r, firstn_all2 by exact Hb.
    rewrite set_queue_same. reflexivity.
  - cbn [map run flat_map]. unfold recv_op at 1. cbn [exec].
    unfold outcome. rewrite OnDataRecv_eq.
    unfold state_of, trace_of. cbn [fst snd]. unfold offered at 1.
    destruct (OnDataRecv_item (fst (fst f)) (snd (fst f)) (snd f))
      as [it|].
    + destruct (Nat.ltb_spec (List.length (mouseDataQueue s)) QUEUE_LENGTH)
        as [Hlt|Hge].
      * rewrite IH by (cbn [mouseDataQueue set_queue]; rewrite length_app;
                       cbn [List.length]; lia).
        cbn [mouseDataQueue set_queue app].
        rewrite set_queue_twice, <- app_assoc. reflexivity.
      * rewrite IH by exact Hb. cbn [app].
        rewrite !firstn_full_app by lia. reflexivity.
    + rewrite IH by exact Hb. reflexivity.
Qed.

Lemma frames_enqueue_in_arrival_order_witness :
  run (map recv_op
         [(mac_A, frame PACKET_TYPE_MOUSE_DATA 1 0 0 0, 42);
          (mac_A, frame PACKET_TYPE_DISCOVERY 0 0 0 0, 42);
          (mac_A, frame PACKET_TYPE_HEARTBEAT 0 0 0 0, 42)])
      initial_state
  = Some (set_queue [item mac_A PACKET_TYPE_MOUSE_DATA 1 0 0 0;
                     item mac_A PACKET_TYPE_HEARTBEAT 0 0 0 0]
                    initial_state, []).
Proof.
  apply (frames_enqueue_in_arrival_order
           [(mac_A, frame PACKET_TYPE_MOUSE_DATA 1 0 0 0, 42);
            (mac_A, frame PACKET_TYPE_DISCOVERY 0 0 0 0, 42);
            (mac_A, frame PACKET_TYPE_HEARTBEAT 0 0 0 0, 42)]
           initial_state).
  cbn. unfold QUEUE_LENGTH. lia.
Defined.

Lemma result_eta (r : unit * State * list Event) :
  r = (tt, state_of r, trace_of r).
Proof. destruct r as [[[] s] t]. reflexivity. Qed.

Lemma mouseTask_body_set_queue (now : Z) (a m : esp_err_t)
  (it : QueueItem_t.t) (q : list QueueItem_t.t) (s : State) :
  mouseTask_body now a m it (set_queue q s) =
  (tt, set_queue q (state_of (mouseTask_body now a m it s)),
   trace_of (mouseTask_body now a m it s)).
Proof.
  rewrite (result_eta (mouseTask_body now a m it (set_queue q s))).
  rewrite !mouseTask_body_state, !mouseTask_body_trace.
  unfold connected_state.
  cbn [isConnected peerMacAddress lastButtons set_queue].
  destruct (_ && _), (isConnected s); reflexivity.
Qed.

Lemma mouseTask_run_set_queue (ds : list Delivery)
  (q : list QueueItem_t.t) (s : State) :
  mouseTask_run ds (set_queue q s) =
  (tt, set_queue q (state_of (mouseTask_run ds s)),
   trace_of (mouseTask_run ds s)).
Proof.
  revert s. induction ds as [|d ds IH]; intros s; [reflexivity|].
  destruct (mouseTask_run_cons d ds s) as [Es Et]. rewrite Es, Et.
  cbn [mouseTask_run]. unfold bind at 1.
  rewrite mouseTask_body_set_queue, IH. reflexivity.
Qed.

(** X3. The consumer task takes the entries in the order in which they were
    queued: as many iterations as there are environments process the head
    entries one after the other, exactly as a run of the task body over
    them, and leave the remaining entries in the queue; an iteration on an
    empty queue does not run (the task is blocked). *)
Theorem queue_drained_in_order (envs : list TaskEnv) (s : State) :
  ((List.length envs <= List.length (mouseDataQueue s))%nat ->
   run (map task_op envs) s =
   Some (set_queue (skipn (List.length envs) (mouseDataQueue s))
           (state_of (mouseTask_run (deliveries envs (mouseDataQueue s)) s)),
         trace_of (mouseTask_run (deliveries envs (mouseDataQueue s)) s))) /\
  ((List.length (mouseDataQueue s) < List.length envs)%nat ->
   run (map task_op envs) s = None).
Proof.
  revert s. induction envs as [|e envs IH]; intros s.
  - split; [intros _|cbn; lia].
    cbn [map run List.length skipn deliveries combine mouseTask_run].
    unfold state_of, trace_of, ret. cbn [fst snd].
    rewrite set_queue_same. reflexivity.
  - cbn [map run List.length]. unfold task_op at 1 3. cbn [exec].
    unfold mouseTask_iteration.
    destruct (mouseDataQueue s) as [|it rest] eqn:Eq.
    + split; [cbn; lia|reflexivity].
    + cbn [option_map]. unfold outcome.
      rewrite mouseTask_body_set_queue.
      set (b := mouseTask_body (fst (fst e)) (snd (fst e)) (snd e) it s).
      replace (state_of (tt, set_queue rest (state_of b), trace_of b))
        with (set_queue rest (state_of b)) by reflexivity.
      replace (trace_of (tt, set_queue rest (state_of b), trace_of b))
        with (trace_of b) by reflexivity.
      destruct (IH (set_queue rest (state_of b))) as [IH1 IH2].
      cbn [mouseDataQueue set_queue] in IH1, IH2.
      rewrite mouseTask_run_set_queue in IH1.
      replace (state_of (tt, set_queue rest
                 (state_of (mouseTask_run (deliveries envs rest) (state_of b))),
                 trace_of (mouseTask_run (deliveries envs rest) (state_of b))))
        with (set_queue rest
                (state_of (mouseTask_run (deliveries envs rest) (state_of b))))
        in IH1 by reflexivity.
      replace (trace_of (tt, set_queue rest
                 (state_of (mouseTask_run (deliveries envs rest) (state_of b))),
                 trace_of (mouseTask_run (deliveries envs rest) (state_of b))))
        with (trace_of (mouseTask_run (deliveries envs rest) (state_of b)))
        in IH1 by reflexivity.
      assert (Hrun : mouseTask_run
                (deliveries (e :: envs) (it :: rest)) s =
              (tt, state_of (mouseTask_run (deliveries envs rest) (state_of b)),
               trace_of b
               ++ trace_of (mouseTask_run (deliveries envs rest) (state_of b)))).
      { rewrite (result_eta (mouseTask_run _ s)).
        unfold deliveries. cbn [combine map].
        match goal with |- context [mouseTask_run (?d :: ?ds) s] =>
          destruct (mouseTask_run_cons d ds s) as [Es Et]
        end.
        rewrite Es, Et. reflexivity. }
      split; intros Hlen; cbn [List.length] in Hlen.
      * rewrite IH1 by lia. rewrite Hrun.
        replace (skipn (S (List.length envs)) (it :: rest))
          with (skipn (List.length envs) rest) by reflexivity.
        reflexivity.
      * rewrite IH2 by lia. reflexivity.
Qed.

Lemma queue_drained_in_order_witness :
  run (map task_op [(10, ESP_OK, ESP_OK); (20, ESP_OK, ESP_OK)])
      (set_queue [item mac_A PACKET_TYPE_MOUSE_DATA 0 0 0 1;
                  item mac_A PACKET_TYPE_MOUSE_DATA 0 0 0 0;
                  item mac_A PACKET_TYPE_HEARTBEAT 0 0 0 0]
                 (set_isConnected true initial_state))
  = Some (mkState [item mac_A PACKET_TYPE_HEARTBEAT 0 0 0 0]
                  true 20 (repeat 0 6) 0 0,
          [Mouse_press MOUSE_LEFT; Mouse_release MOUSE_LEFT]) /\
  run (map task_op [(10, ESP_OK, ESP_OK)]) initial_state = None.
Proof.
  split.
  - apply (proj1 (queue_drained_in_order
                    [(10, ESP_OK, ESP_OK); (20, ESP_OK, ESP_OK)]
                    (set_queue [item mac_A PACKET_TYPE_MOUSE_DATA 0 0 0 1;
                                item mac_A PACKET_TYPE_MOUSE_DATA 0 0 0 0;
                                item mac_A PACKET_TYPE_HEARTBEAT 0 0 0 0]
                               (set_isConnected true initial_state)))).
    cbn. lia.
  - apply (proj2 (queue_drained_in_order [(10, ESP_OK, ESP_OK)]
                    initial_state)).
    cbn. lia.
Defined.

(** ** The bound peer *)

(** X4. Once Connected, the sender address of an entry plays no part: an
    entry from any other address is processed exactly like the same entry
    from the bound peer, whatever the peer-table answers would have been, and
    [peerMacAddress] stays as it is. *)
Theorem sender_ignored_once_connected
  (now : Z) (a m a' m' : esp_err_t) (mac' : list Z) (it : QueueItem_t.t)
  (s : State) :
  isConnected s = true ->
  mouseTask_body now a' m' (with_sender mac' it) s =
    mouseTask_body now a m it s /\
  peerMacAddress (state_of (mouseTask_body now a m it s)) = peerMacAddress s.
Proof.
  intros Hc. split.
  - rewrite (result_eta (mouseTask_body now a' m' (with_sender mac' it) s)),
      (result_eta (mouseTask_body now a m it s)).
    rewrite !mouseTask_body_state, !mouseTask_body_trace.
    unfold connected_state, with_sender.
    cbn [QueueItem_t.type QueueItem_t.buttons QueueItem_t.deltaX
         QueueItem_t.deltaY QueueItem_t.wheel QueueItem_t.mac_addr].
    rewrite Hc. reflexivity.
  - rewrite mouseTask_body_peer, Hc. reflexivity.
Qed.

Lemma sender_ignored_once_connected_witness :
  mouseTask_body 50 ESP_ERR_OTHER ESP_ERR_OTHER
    (with_sender broadcastAddress (item mac_A PACKET_TYPE_MOUSE_DATA 4 0 0 1))
    (mkState [] true 7 mac_A 0 0)
  = mouseTask_body 50 ESP_OK ESP_OK
      (item mac_A PACKET_TYPE_MOUSE_DATA 4 0 0 1)
      (mkState [] true 7 mac_A 0 0).
Proof.
  apply (sender_ignored_once_connected 50 ESP_OK ESP_OK ESP_ERR_OTHER
           ESP_ERR_OTHER broadcastAddress
           (item mac_A PACKET_TYPE_MOUSE_DATA 4 0 0 1)
           (mkState [] true 7 mac_A 0 0)).
  reflexivity.
Defined.

(** X5. While Connected the bound peer is never replaced by another sender:
    an operation either leaves [peerMacAddress] as it is or is the pass of
    [loop] that times out and zeroes it. *)
Theorem bound_peer_only_cleared_by_timeout
  (op : Op) (s s' : State) (tr : list Event) :
  isConnected s = true ->
  exec op s = Some (s', tr) ->
  peerMacAddress s' = peerMacAddress s \/
  (exists now now' d,
     op = LoopPass now now' d /\
     CONNECTION_TIMEOUT < to_uint32 (now - lastPacketTime s) /\
     isConnected s' = false /\
     peerMacAddress s' = memset (peerMacAddress s) 0 6).
Proof.
  intros Hc Hex.
  destruct op as [mac data len|now a m|now now' d]; cbn [exec] in Hex.
  - left. injection Hex as <- _. unfold outcome. cbn [fst].
    destruct (OnDataRecv_outcome mac data len s) as [_ [E|E]];
      rewrite E; reflexivity.
  - left. unfold mouseTask_iteration in Hex.
    destruct (mouseDataQueue s) as [|it rest]; [discriminate|].
    cbn [option_map] in Hex. injection Hex as <- _.
    unfold outcome. cbn [fst]. rewrite mouseTask_body_peer.
    cbn [isConnected set_queue]. rewrite Hc. reflexivity.
  - injection Hex as <- _. unfold outcome. cbn [fst].
    rewrite loop_eq, Hc.
    destruct (Z.gtb_spec (to_uint32 (now - lastPacketTime s))
                CONNECTION_TIMEOUT) as [Hlt|Hge].
    + right. exists now, now', d. repeat split. exact Hlt.
    + left. reflexivity.
Qed.

Lemma bound_peer_only_cleared_by_timeout_witness :
  peerMacAddress (mkState [] true 99 mac_A 0 0) =
    peerMacAddress
      (mkState [item broadcastAddress PACKET_TYPE_HEARTBEAT 0 0 0 0]
               true 7 mac_A 0 0) \/
  (exists now now' d,
     TaskIteration 99 ESP_OK ESP_OK = LoopPass now now' d /\
     CONNECTION_TIMEOUT <
       to_uint32
         (now - lastPacketTime
                  (mkState [item broadcastAddress PACKET_TYPE_HEARTBEAT 0 0 0 0]
                           true 7 mac_A 0 0)) /\
     isConnected (mkState [] true 99 mac_A 0 0) = false /\
     peerMacAddress (mkState [] true 99 mac_A 0 0) =
       memset
         (peerMacAddress
            (mkState [item broadcastAddress PACKET_TYPE_HEARTBEAT 0 0 0 0]
                     true 7 mac_A 0 0)) 0 6).
Proof.
  apply (bound_peer_only_cleared_by_timeout
           (TaskIteration 99 ESP_OK ESP_OK)
           (mkState [item broadcastAddress PACKET_TYPE_HEARTBEAT 0 0 0 0]
                    true 7 mac_A 0 0)
           (mkState [] true 99 mac_A 0 0) []);
    reflexivity.
Defined.

Lemma connect_trace_add_peer (a m : esp_err_t) (mac peer : list Z) :
  filter is_add_peer (connect_trace a m mac peer) =
    [esp_now_add_peer
       (mk_peer (memcpy (repeat 0 6) (memcpy peer mac 6) 6)
                WIFI_CHANNEL false WIFI_IF_STA)] /\
  filter is_mod_peer (connect_trace a m mac peer) =
    match a with
    | ESP_OK => []
    | _ => [esp_now_mod_peer
              (mk_peer (memcpy (repeat 0 6) (memcpy peer mac 6) 6)
                       WIFI_CHANNEL false WIFI_IF_STA)]
    end.
Proof. destruct a, m; split; reflexivity. Qed.

Lemma body_trace_radio (f : Event -> bool) (now : Z) (a m : esp_err_t)
  (it : QueueItem_t.t) (s : State) :
  (forall x y w, f (Mouse_move x y w) = false) ->
  (forall b, f (Mouse_press b) = false) ->
  (forall b, f (Mouse_release b) = false) ->
  filter f (trace_of (mouseTask_body now a m it s)) =
  if isConnected s then []
  else filter f (connect_trace a m (QueueItem_t.mac_addr it)
                               (peerMacAddress s)).
Proof.
  intros H1 H2 H3.
  rewrite mouseTask_body_eq, after_refresh_trace, filter_app.
  cbn [isConnected peerMacAddress set_lastPacketTime].
  match goal with |- context [dispatch it ?s1] =>
    pose proof (dispatch_trace_hid it s1) as Hh;
    assert (E : filter f (trace_of (dispatch it s1)) = [])
  end.
  { apply filter_idle. revert Hh.
    generalize (trace_of (dispatch it
      (if isConnected s then set_lastPacketTime now s
       else set_isConnected true
              (set_peerMacAddress
                 (memcpy (peerMacAddress s) (QueueItem_t.mac_addr it) 6)
                 (set_lastPacketTime now s))))).
    intros l. induction l as [|e l IH]; [reflexivity|].
    cbn [forallb]. intros Hh. apply andb_true_iff in Hh as [He Hl].
    rewrite (IH Hl), andb_true_r.
    destruct e; try discriminate He; rewrite ?H1, ?H2, ?H3; reflexivity. }
  rewrite E, app_nil_r. destruct (isConnected s); reflexivity.
Qed.

(** X6. Registering the peer is best effort.  On the connect transition
    exactly one add-peer request is made, for the sender address on channel
    13 without encryption on the station interface; a modify-peer request
    with the same data follows exactly when the add-peer request did not
    answer [ESP_OK]; and the state at the end of the iteration is the same
    whatever the two answers were. *)
Theorem peer_registration_is_best_effort
  (now : Z) (a m a' m' : esp_err_t) (it : QueueItem_t.t) (s : State) :
  isConnected s = false ->
  List.length (QueueItem_t.mac_addr it) = 6%nat ->
  List.length (peerMacAddress s) = 6%nat ->
  filter is_add_peer (trace_of (mouseTask_body now a m it s)) =
    [esp_now_add_peer
       (mk_peer (QueueItem_t.mac_addr it) WIFI_CHANNEL false WIFI_IF_STA)] /\
  filter is_mod_peer (trace_of (mouseTask_body now a m it s)) =
    match a with
    | ESP_OK => []
    | _ => [esp_now_mod_peer
              (mk_peer (QueueItem_t.mac_addr it) WIFI_CHANNEL false
                       WIFI_IF_STA)]
    end /\
  state_of (mouseTask_body now a' m' it s) =
    state_of (mouseTask_body now a m it s).
Proof.
  intros Hc Hmac Hpeer.
  rewrite !body_trace_radio by reflexivity. rewrite Hc.
  destruct (connect_trace_add_peer a m (QueueItem_t.mac_addr it)
              (peerMacAddress s)) as [Ea Em].
  rewrite Ea, Em.
  rewrite (memcpy_whole (peerMacAddress s)) by assumption.
  rewrite memcpy_whole by (assumption || reflexivity).
  repeat split. rewrite !mouseTask_body_state. reflexivity.
Qed.

Lemma peer_registration_is_best_effort_witness :
  filter is_mod_peer
    (trace_of (mouseTask_body 5 ESP_ERR_OTHER ESP_ERR_OTHER
                 (item mac_A PACKET_TYPE_HEARTBEAT 0 0 0 0) initial_state)) =
    [esp_now_mod_peer (mk_peer mac_A WIFI_CHANNEL false WIFI_IF_STA)] /\
  state_of (mouseTask_body 5 ESP_OK ESP_OK
              (item mac_A PACKET_TYPE_HEARTBEAT 0 0 0 0) initial_state) =
    state_of (mouseTask_body 5 ESP_ERR_OTHER ESP_ERR_OTHER
                (item mac_A PACKET_TYPE_HEARTBEAT 0 0 0 0) initial_state).
Proof.
  destruct (peer_registration_is_best_effort 5 ESP_ERR_OTHER ESP_ERR_OTHER
              ESP_OK ESP_OK (item mac_A PACKET_TYPE_HEARTBEAT 0 0 0 0)
              initial_state eq_refl eq_refl eq_refl) as (_ & Hm & Hs).
  exact (conj Hm Hs).
Defined.

(** X7. Pointer and button events come from MouseData entries only: an
    operation whose trace holds an HID event is an iteration of the consumer
    task on a queue whose head is a MouseData entry.  The callback, the loop
    and the processing of any other entry never drive the mouse. *)
Theorem hid_events_only_from_mouse_data
  (op : Op) (s s' : State) (tr : list Event) :
  exec op s = Some (s', tr) ->
  filter is_hid tr <> [] ->
  exists now a m it rest,
    op = TaskIteration now a m /\
    mouseDataQueue s = it :: rest /\
    QueueItem_t.type it = PACKET_TYPE_MOUSE_DATA.
Proof.
  intros Hex Hh.
  destruct op as [mac data len|now a m|now now' d]; cbn [exec] in Hex.
  - exfalso. injection Hex as _ <-. unfold outcome in Hh. cbn [snd] in Hh.
    destruct (OnDataRecv_outcome mac data len s) as [E _].
    rewrite E in Hh. apply Hh. reflexivity.
  - unfold mouseTask_iteration in Hex.
    destruct (mouseDataQueue s) as [|it rest] eqn:Eq; [discriminate|].
    cbn [option_map] in Hex. injection Hex as _ <-.
    unfold outcome in Hh. cbn [snd] in Hh.
    exists now, a, m, it, rest. repeat split.
    rewrite mouseTask_body_filter in Hh by reflexivity.
    destruct (Z.eqb_spec (QueueItem_t.type it) PACKET_TYPE_MOUSE_DATA);
      [assumption|contradiction].
  - exfalso. injection Hex as _ <-. unfold outcome in Hh. cbn [snd] in Hh.
    rewrite loop_eq in Hh. apply Hh.
    destruct (isConnected s).
    + destruct (_ >? _); reflexivity.
    + destruct (_ >=? _); reflexivity.
Qed.

Lemma hid_events_only_from_mouse_data_witness :
  exists now a m it rest,
    TaskIteration 9 ESP_OK ESP_OK = TaskIteration now a m /\
    mouseDataQueue
      (set_queue [item mac_A PACKET_TYPE_MOUSE_DATA 2 0 0 0] initial_state)
      = it :: rest /\
    QueueItem_t.type it = PACKET_TYPE_MOUSE_DATA.
Proof.
  apply (hid_events_only_from_mouse_data
           (TaskIteration 9 ESP_OK ESP_OK)
           (set_queue [item mac_A PACKET_TYPE_MOUSE_DATA 2 0 0 0]
                      initial_state)
           (mkState [] true 9 mac_A 0 0)
           [Serial_println (LogFirstPacket mac_A);
            esp_now_add_peer (mk_peer mac_A WIFI_CHANNEL false WIFI_IF_STA);
            Serial_println LogPeerAdded;
            Mouse_move 2 0 0]).
  - reflexivity.
  - discriminate.
Defined.

(** ** Timing of the cooperative loop *)

(** X8. A pass of [loop] does nothing at all, neither to the state nor to
    the outside, when the state is Connected and at most 3000 ms have passed
    since the last entry (the limit itself does not time out), and when the
    state is Disconnected and less than 1000 ms have passed since the last
    broadcast. *)
Theorem loop_idle_pass (now now' : Z) (d : esp_err_t) (s : State) :
  (isConnected s = true ->
   to_uint32 (now - lastPacketTime s) <= CONNECTION_TIMEOUT ->
   loop now now' d s = (tt, s, [])) /\
  (isConnected s = false ->
   to_uint32 (now - lastBroadcastTime s) < 1000 ->
   loop now now' d s = (tt, s, [])).
Proof.
  rewrite loop_eq. split; intros Hc Ht; rewrite Hc.
  - destruct (Z.gtb_spec (to_uint32 (now - lastPacketTime s))
                CONNECTION_TIMEOUT); [lia|reflexivity].
  - rewrite Z.geb_leb.
    destruct (Z.leb_spec 1000 (to_uint32 (now - lastBroadcastTime s)));
      [lia|reflexivity].
Qed.

Lemma loop_idle_pass_witness :
  loop 3007 3007 ESP_OK (mkState [] true 7 mac_A 0 0)
    = (tt, mkState [] true 7 mac_A 0 0, []) /\
  loop 999 999 ESP_OK initial_state = (tt, initial_state, []).
Proof.
  split.
  - apply (proj1 (loop_idle_pass 3007 3007 ESP_OK
                    (mkState [] true 7 mac_A 0 0)));
      [reflexivity|vm_compute; discriminate].
  - apply (proj2 (loop_idle_pass 999 999 ESP_OK initial_state));
      reflexivity.
Defined.

Lemma to_uint32_difference (T0 T1 : Z) :
  0 <= T1 - T0 < 2 ^ 32 ->
  to_uint32 (to_uint32 T1 - to_uint32 T0) = T1 - T0.
Proof.
  intros H. unfold to_uint32.
  rewrite <- Zminus_mod. apply Z.mod_small. exact H.
Qed.

(** X9. The two tests of [loop] survive the roll-over of the 32-bit
    millisecond counter: when the stored time and the current reading are the
    low 32 bits of two instants [T0 <= T1] less than 2^32 ms apart, a
    Connected state is reset exactly when [T1 - T0 > 3000], and a
    Disconnected state broadcasts exactly when [T1 - T0 >= 1000]. *)
Theorem loop_tests_survive_rollover
  (T0 T1 now' : Z) (d : esp_err_t) (s : State) :
  0 <= T1 - T0 < 2 ^ 32 ->
  (isConnected s = true -> lastPacketTime s = to_uint32 T0 ->
   (isConnected (state_of (loop (to_uint32 T1) now' d s)) = false <->
    CONNECTION_TIMEOUT < T1 - T0)) /\
  (isConnected s = false -> lastBroadcastTime s = to_uint32 T0 ->
   (filter is_send (trace_of (loop (to_uint32 T1) now' d s)) <> [] <->
    1000 <= T1 - T0)).
Proof.
  intros HT. rewrite loop_eq. split; intros Hc Hl; rewrite Hc, Hl;
    rewrite to_uint32_difference by exact HT.
  - destruct (Z.gtb_spec (T1 - T0) CONNECTION_TIMEOUT) as [H|H];
      unfold state_of; cbn [fst snd isConnected set_peerMacAddress
                            set_isConnected].
    + split; [intros _; exact H|reflexivity].
    + split; [congruence|lia].
  - rewrite Z.geb_leb.
    destruct (Z.leb_spec 1000 (T1 - T0)) as [H|H]; unfold trace_of;
      cbn [snd].
    + split; [intros _; exact H|discriminate].
    + split; [intros N; exfalso; apply N; reflexivity|lia].
Qed.

Lemma loop_tests_survive_rollover_witness :
  isConnected
    (state_of (loop (to_uint32 (2 ^ 32 + 2500)) 0 ESP_OK
                 (mkState [] true (2 ^ 32 - 1000) mac_A 0 0))) = false <->
  CONNECTION_TIMEOUT < (2 ^ 32 + 2500) - (2 ^ 32 - 1000).
Proof.
  apply (loop_tests_survive_rollover (2 ^ 32 - 1000) (2 ^ 32 + 2500) 0 ESP_OK
           (mkState [] true (2 ^ 32 - 1000) mac_A 0 0)).
  - lia.
  - reflexivity.
  - reflexivity.
Defined.

Lemma mouseTask_body_time (now : Z) (a m : esp_err_t) (it : QueueItem_t.t)
  (s : State) :
  lastPacketTime (state_of (mouseTask_body now a m it s)) = now.
Proof.
  rewrite mouseTask_body_state. unfold connected_state.
  destruct (_ && _), (isConnected s); reflexivity.
Qed.

(** X10. Any processed entry, a Heartbeat as much as a MouseData, keeps the
    connection alive for the next 3000 ms: a pass of [loop] whose clock
    reading is at most 3000 ms (in 32-bit arithmetic) after the reading of
    the iteration changes nothing. *)
Theorem entry_postpones_timeout
  (now t t' : Z) (a m d : esp_err_t) (it : QueueItem_t.t) (s : State) :
  to_uint32 (t - now) <= CONNECTION_TIMEOUT ->
  loop t t' d (state_of (mouseTask_body now a m it s)) =
  (tt, state_of (mouseTask_body now a m it s), []).
Proof.
  intros Ht. rewrite loop_eq.
  rewrite mouseTask_body_connected, mouseTask_body_time.
  destruct (Z.gtb_spec (to_uint32 (t - now)) CONNECTION_TIMEOUT);
    [lia|reflexivity].
Qed.

Lemma entry_postpones_timeout_witness :
  loop 4000 4000 ESP_OK
    (state_of (mouseTask_body 1000 ESP_OK ESP_OK
                 (item mac_A PACKET_TYPE_HEARTBEAT 0 0 0 0) initial_state))
  = (tt,
     state_of (mouseTask_body 1000 ESP_OK ESP_OK
                 (item mac_A PACKET_TYPE_HEARTBEAT 0 0 0 0) initial_state),
     []).
Proof.
  apply (entry_postpones_timeout 1000 4000 4000 ESP_OK ESP_OK ESP_OK
           (item mac_A PACKET_TYPE_HEARTBEAT 0 0 0 0) initial_state).
  vm_compute. discriminate.
Defined.

(** X11. Broadcasts are at least 1000 ms apart: the pass that broadcasts
    stores the second clock reading in [lastBroadcastTime], and a later pass
    in the resulting state whose reading is less than 1000 ms after it sends
    nothing and changes nothing. *)
Theorem broadcasts_are_spaced
  (now now' t t' : Z) (d d' : esp_err_t) (s : State) :
  isConnected s = false ->
  1000 <= to_uint32 (now - lastBroadcastTime s) ->
  to_uint32 (t - now') < 1000 ->
  lastBroadcastTime (state_of (loop now now' d s)) = now' /\
  loop t t' d' (state_of (loop now now' d s)) =
    (tt, state_of (loop now now' d s), []).
Proof.
  intros Hc H1 H2.
  assert (E : state_of (loop now now' d s) = set_lastBroadcastTime now' s).
  { rewrite loop_eq, Hc.
    replace (to_uint32 (now - lastBroadcastTime s) >=? 1000) with true
      by (symmetry; apply Z.geb_le; exact H1).
    reflexivity. }
  rewrite E. split; [reflexivity|].
  rewrite loop_eq. cbn [isConnected lastBroadcastTime set_lastBroadcastTime].
  rewrite Hc, Z.geb_leb.
  destruct (Z.leb_spec 1000 (to_uint32 (t - now'))); [lia|reflexivity].
Qed.

Lemma broadcasts_are_spaced_witness :
  lastBroadcastTime (state_of (loop 1000 1003 ESP_OK initial_state)) = 1003 /\
  loop 2002 2002 ESP_OK (state_of (loop 1000 1003 ESP_OK initial_state)) =
    (tt, state_of (loop 1000 1003 ESP_OK initial_state), []).
Proof.
  apply (broadcasts_are_spaced 1000 1003 2002 2002 ESP_OK ESP_OK
           initial_state).
  - reflexivity.
  - vm_compute. discriminate.
  - reflexivity.
Defined.

(** X12. The reset goes through whatever the peer table answers to the
    removal request: the state after the pass, and every event of the pass
    other than the console line that reports the answer, are the same for
    any two answers. *)
Theorem reset_ignores_removal_answer
  (now now' : Z) (d d' : esp_err_t) (s : State) :
  state_of (loop now now' d s) = state_of (loop now now' d' s) /\
  filter (fun e => negb (is_serial e)) (trace_of (loop now now' d s)) =
  filter (fun e => negb (is_serial e)) (trace_of (loop now now' d' s)).
Proof.
  rewrite !loop_eq.
  destruct (isConnected s); [|split; reflexivity].
  destruct (_ >? _); split; reflexivity.
Qed.

(** X13. After a timeout the next entry binds its sender as the new peer:
    the reset leaves a state from which the connect transition stores the
    new sender address, and the radio is asked to remove the old peer in the
    pass and to add the new one in the iteration. *)
Theorem rebinding_after_timeout
  (now now' t : Z) (d a m : esp_err_t) (it : QueueItem_t.t) (s : State) :
  isConnected s = true ->
  List.length (peerMacAddress s) = 6%nat ->
  List.length (QueueItem_t.mac_addr it) = 6%nat ->
  CONNECTION_TIMEOUT < to_uint32 (now - lastPacketTime s) ->
  filter is_del_peer (trace_of (loop now now' d s)) =
    [esp_now_del_peer (peerMacAddress s)] /\
  filter is_add_peer
    (trace_of (mouseTask_body t a m it (state_of (loop now now' d s)))) =
    [esp_now_add_peer
       (mk_peer (QueueItem_t.mac_addr it) WIFI_CHANNEL false WIFI_IF_STA)] /\
  isConnected
    (state_of (mouseTask_body t a m it (state_of (loop now now' d s))))
    = true /\
  peerMacAddress
    (state_of (mouseTask_body t a m it (state_of (loop now now' d s))))
    = QueueItem_t.mac_addr it.
Proof.
  intros Hc Hp Hm Ht.
  assert (E : loop now now' d s =
              (tt,
               set_peerMacAddress (memset (peerMacAddress s) 0 6)
                 (set_isConnected false s),
               reset_trace d (peerMacAddress s))).
  { rewrite loop_eq, Hc.
    replace (to_uint32 (now - lastPacketTime s) >? CONNECTION_TIMEOUT)
      with true by (symmetry; apply Z.gtb_lt; exact Ht).
    reflexivity. }
  rewrite E.
  replace (state_of (tt,
             set_peerMacAddress (memset (peerMacAddress s) 0 6)
               (set_isConnected false s),
             reset_trace d (peerMacAddress s)))
    with (set_peerMacAddress (memset (peerMacAddress s) 0 6)
            (set_isConnected false s)) by reflexivity.
  split; [reflexivity|].
  rewrite body_trace_radio by reflexivity.
  rewrite mouseTask_body_connected, mouseTask_body_peer.
  cbn [isConnected peerMacAddress set_peerMacAddress set_isConnected].
  rewrite memset_whole by exact Hp.
  destruct (connect_trace_add_peer a m (QueueItem_t.mac_addr it)
              (repeat 0 6)) as [Ea _].
  rewrite Ea.
  rewrite (memcpy_whole (repeat 0 6) (QueueItem_t.mac_addr it))
    by (assumption || reflexivity).
  rewrite memcpy_whole by (assumption || reflexivity).
  repeat split.
Qed.

Lemma rebinding_after_timeout_witness :
  peerMacAddress
    (state_of (mouseTask_body 9000 ESP_OK ESP_OK
                 (item broadcastAddress PACKET_TYPE_HEARTBEAT 0 0 0 0)
                 (state_of (loop 3008 3008 ESP_OK
                              (mkState [] true 7 mac_A 0 0)))))
  = broadcastAddress.
Proof.
  apply (rebinding_after_timeout 3008 3008 9000 ESP_OK ESP_OK ESP_OK
           (item broadcastAddress PACKET_TYPE_HEARTBEAT 0 0 0 0)
           (mkState [] true 7 mac_A 0 0)).
  - reflexivity.
  - reflexivity.
  - reflexivity.
  - vm_compute. reflexivity.
Defined.

(** ** Button events seen by the host *)

Lemma presses_consistent_app (t1 t2 : list Event) (held : Z) :
  presses_consistent held (t1 ++ t2) =
  presses_consistent held t1
  && presses_consistent (held_after_trace held t1) t2.
Proof.
  revert held. induction t1 as [|e t1 IH]; intros held; [reflexivity|].
  unfold held_after_trace. cbn [app presses_consistent fold_left].
  fold (held_after_trace (held_after held e) t1).
  destruct e; cbn [held_after]; rewrite IH; try reflexivity;
    rewrite andb_assoc; reflexivity.
Qed.

Lemma presses_consistent_buttons (tr : list Event) (held : Z) :
  presses_consistent held tr = presses_consistent held (filter is_button tr).
Proof.
  revert held. induction tr as [|e tr IH]; intros held; [reflexivity|].
  destruct e; cbn [filter is_button presses_consistent]; rewrite IH;
    reflexivity.
Qed.

(** The diff of [b] against [l] is consistent with the held buttons
    [l & 0x1F]; checked on the 256 x 256 byte values. *)
Lemma diff_consistent_bytes (b l : Z) :
  is_uint8 b -> is_uint8 l ->
  presses_consistent (Z.land l 0x1F) (spec_button_actions b l) = true.
Proof.
  intros Hb Hl. revert l Hl. revert b Hb.
  apply (uint8_cases (fun b => forall l, is_uint8 l ->
           presses_consistent (Z.land l 0x1F) (spec_button_actions b l)
           = true)).
  intros nb Hnb.
  apply (uint8_cases (fun l =>
           presses_consistent (Z.land l 0x1F)
             (spec_button_actions (Z.of_nat nb) l) = true)).
  intros nl Hnl.
  assert (Hall :
    forallb (fun nb =>
      forallb (fun nl =>
        presses_consistent (Z.land (Z.of_nat nl) 0x1F)
          (spec_button_actions (Z.of_nat nb) (Z.of_nat nl)))
        (seq 0 256)) (seq 0 256) = true)
    by (vm_compute; reflexivity).
  rewrite forallb_forall in Hall. specialize (Hall nb Hnb).
  rewrite forallb_forall in Hall. exact (Hall nl Hnl).
Qed.

(** X14. Over every sequence of MouseData entries the host never sees a
    press of a button that is already down nor a release of a button that is
    up: each press or release in the trace changes the state of its button,
    starting from the buttons given by the low five bits of [lastButtons]. *)
Theorem no_spurious_button_events (ds : list Delivery) (s : State) :
  Forall mouse_data_delivery ds ->
  is_uint8 (lastButtons s) ->
  presses_consistent (Z.land (lastButtons s) 0x1F)
                     (trace_of (mouseTask_run ds s)) = true.
Proof.
  intros Hds. revert s.
  induction Hds as [|d ds [Hty Hb] _ IH]; intros s Hs; [reflexivity|].
  destruct (mouseTask_run_cons d ds s) as [_ Etr]. rewrite Etr.
  set (r := mouseTask_body (at_time d) (add_answer d) (mod_answer d)
              (entry d) s).
  assert (Hbt : filter is_button (trace_of r) =
                spec_button_actions (QueueItem_t.buttons (entry d))
                                    (lastButtons s)).
  { unfold r. rewrite mouseTask_body_buttons, Hty. reflexivity. }
  rewrite presses_consistent_app.
  rewrite (presses_consistent_buttons (trace_of r)),
    (held_after_trace_buttons (trace_of r)), Hbt.
  rewrite diff_consistent_bytes, diff_replay_bytes by assumption.
  cbn [andb].
  assert (Hl1 : lastButtons (state_of r) = QueueItem_t.buttons (entry d))
    by (apply mouse_data_lastButtons; exact Hty).
  rewrite <- Hl1. apply IH. rewrite Hl1. exact Hb.
Qed.

Lemma no_spurious_button_events_witness :
  presses_consistent (Z.land (lastButtons initial_state) 0x1F)
    (trace_of
       (mouseTask_run
          [mkDelivery 10 ESP_OK ESP_OK
                      (item mac_A PACKET_TYPE_MOUSE_DATA 0 0 0 0x03);
           mkDelivery 20 ESP_OK ESP_OK
                      (item mac_A PACKET_TYPE_MOUSE_DATA 0 0 0 0xE1)]
          initial_state)) = true.
Proof.
  apply (no_spurious_button_events
           [mkDelivery 10 ESP_OK ESP_OK
                       (item mac_A PACKET_TYPE_MOUSE_DATA 0 0 0 0x03);
            mkDelivery 20 ESP_OK ESP_OK
                       (item mac_A PACKET_TYPE_MOUSE_DATA 0 0 0 0xE1)]
           initial_state).
  - repeat constructor; cbn; lia.
  - unfold is_uint8. cbn. lia.
Defined.

(** ** The wire layout *)

Lemma uint32_of_bytes (z : Z) :
  is_uint32 z ->
  z mod 256 + 256 * ((z / 256) mod 256 + 256 * ((z / 256 / 256) mod 256
    + 256 * ((z / 256 / 256 / 256) mod 256 + 256 * 0))) = z.
Proof.
  unfold is_uint32. intros H.
  change (2 ^ 32) with 4294967296 in H.
  Z.div_mod_to_equations. lia.
Qed.

(** X15. Encoding a packet object and reading it back through the struct
    pointer is the identity: for every packet with in-range fields the
    encoding has the 42 bytes of the wire size, each a byte, and decodes to
    the same packet, sign of the deltas and of the wheel included. *)
Theorem packet_encode_decode (p : UniversalPacket.t) :
  packet_wf p ->
  Z.of_nat (List.length (bytes_of_packet p)) = sizeof_UniversalPacket /\
  Forall is_uint8 (bytes_of_packet p) /\
  packet_of_bytes (bytes_of_packet p) = p.
Proof.
  destruct p as [ty name dx dy w b].
  unfold packet_wf.
  cbn [UniversalPacket.type UniversalPacket.deviceName UniversalPacket.deltaX
       UniversalPacket.deltaY UniversalPacket.wheel UniversalPacket.buttons].
  intros (Hty & Hn & Hnb & Hx & Hy & Hw & Hb).
  do 32 (destruct name as [|? name]; [discriminate Hn|]).
  destruct name; [clear Hn|discriminate Hn].
  unfold bytes_of_packet, packet_of_bytes, le_bytes, byte_at.
  cbn [UniversalPacket.type UniversalPacket.deviceName UniversalPacket.deltaX
       UniversalPacket.deltaY UniversalPacket.wheel UniversalPacket.buttons
       bytes_le app repeat firstn skipn nth fold_right List.length].
  split; [reflexivity|]. split.
  - repeat match goal with
           | H : Forall _ (_ :: _) |- _ => inversion H; clear H; subst
           end.
    repeat (apply Forall_cons;
            [first [assumption
                   |unfold is_uint8; apply Z.mod_pos_bound; lia]|]).
    apply Forall_nil.
  - rewrite !int16_of_bytes, int8_of_byte, uint32_of_bytes by assumption.
    f_equal. unfold is_uint8 in Hb. apply Z.mod_small. lia.
Qed.

Lemma packet_encode_decode_witness :
  packet_of_bytes
    (bytes_of_packet
       (UniversalPacket.mk 0xFFFFFFFF (repeat 65 32) (-32768) 32767 (-1) 255))
  = UniversalPacket.mk 0xFFFFFFFF (repeat 65 32) (-32768) 32767 (-1) 255.
Proof.
  apply (packet_encode_decode
           (UniversalPacket.mk 0xFFFFFFFF (repeat 65 32) (-32768) 32767
                               (-1) 255)).
  unfold packet_wf, is_uint32, is_int16, is_int8, is_uint8.
  cbn [UniversalPacket.type UniversalPacket.deviceName UniversalPacket.deltaX
       UniversalPacket.deltaY UniversalPacket.wheel UniversalPacket.buttons].
  repeat split; try lia; try reflexivity.
  cbn [repeat]. bytes_in_range.
Defined.

Lemma bytes_of_uint32 (b0 b1 b2 b3 : Z) :
  is_uint8 b0 -> is_uint8 b1 -> is_uint8 b2 -> is_uint8 b3 ->
  bytes_le 4 (b0 + 256 * (b1 + 256 * (b2 + 256 * (b3 + 256 * 0)))) =
  [b0; b1; b2; b3].
Proof.
  unfold is_uint8. intros H0 H1 H2 H3. cbn [bytes_le].
  repeat f_equal; Z.div_mod_to_equations; lia.
Qed.

Lemma bytes_of_int16 (b0 b1 : Z) :
  is_uint8 b0 -> is_uint8 b1 ->
  bytes_le 2 (to_int16 (b0 + 256 * (b1 + 256 * 0))) = [b0; b1].
Proof.
  unfold is_uint8, to_int16. intros H0 H1. cbn [bytes_le].
  destruct (Z.ltb_spec ((b0 + 256 * (b1 + 256 * 0)) mod 65536) 32768);
    repeat f_equal; Z.div_mod_to_equations; lia.
Qed.

Lemma bytes_of_int8 (b0 : Z) :
  is_uint8 b0 -> bytes_le 1 (to_int8 b0) = [b0].
Proof.
  unfold is_uint8, to_int8. intros H0. cbn [bytes_le].
  destruct (Z.ltb_spec (b0 mod 256) 128);
    repeat f_equal; Z.div_mod_to_equations; lia.
Qed.

(** X16. The struct covers the whole frame: reading a frame of 42 bytes
    through the struct pointer and writing the fields back gives the same 42
    bytes, so no byte of an accepted frame is lost or altered by decoding. *)
Theorem frame_decode_encode (data : list Z) :
  Z.of_nat (List.length data) = sizeof_UniversalPacket ->
  Forall is_uint8 data ->
  bytes_of_packet (packet_of_bytes data) = data.
Proof.
  intros Hlen Hb.
  assert (Hn : List.length data = 42%nat)
    by (change sizeof_UniversalPacket with 42 in Hlen; lia).
  clear Hlen.
  do 42 (destruct data as [|? data]; [discriminate Hn|]).
  destruct data; [clear Hn|discriminate Hn].
  repeat match goal with
         | H : Forall _ (_ :: _) |- _ => inversion H; clear H; subst
         end.
  unfold bytes_of_packet, packet_of_bytes, le_bytes, byte_at.
  cbn [UniversalPacket.type UniversalPacket.deviceName UniversalPacket.deltaX
       UniversalPacket.deltaY UniversalPacket.wheel UniversalPacket.buttons
       app repeat firstn skipn nth fold_right].
  rewrite bytes_of_uint32, !bytes_of_int16, bytes_of_int8 by assumption.
  cbn [bytes_le app]. repeat f_equal.
  match goal with H : is_uint8 ?z |- ?z mod 256 = ?z =>
    unfold is_uint8 in H; apply Z.mod_small; lia
  end.
Qed.

Lemma frame_decode_encode_witness :
  bytes_of_packet
    (packet_of_bytes (frame PACKET_TYPE_MOUSE_DATA (-2) 3 (-1) 3))
  = frame PACKET_TYPE_MOUSE_DATA (-2) 3 (-1) 3.
Proof.
  apply (frame_decode_encode (frame PACKET_TYPE_MOUSE_DATA (-2) 3 (-1) 3)).
  - reflexivity.
  - apply frame_bytes_valid.
Defined.

(** ** Bring-up *)

(** The three ways in which [initWiFi] ends, with the answers that lead to
    each and the calls made. *)
Lemma initWiFi_outcome (p : Bringup.Platform) :
  forallb Bringup.is_wifi_call (Bringup.calls_of (Bringup.initWiFi p)) = true /\
  match Bringup.exit_of (Bringup.initWiFi p) with
  | Bringup.Returned true =>
      Bringup.wifi_comes_up p /\
      Bringup.calls_of (Bringup.initWiFi p) =
        Bringup.nvs_calls p ++ Bringup.wifi_calls
  | Bringup.Returned false =>
      ~ Bringup.wifi_comes_up p /\ ~ Bringup.nvs_aborts p /\
      exists pre c post,
        Bringup.calls_of (Bringup.initWiFi p) =
          pre ++ [c; Bringup.Serial_error c] /\
        pre ++ c :: post = Bringup.nvs_calls p ++ Bringup.wifi_calls
  | Bringup.Aborted =>
      ~ Bringup.wifi_comes_up p /\ Bringup.nvs_aborts p /\
      Bringup.calls_of (Bringup.initWiFi p) =
        [Bringup.nvs_flash_init; Bringup.nvs_flash_erase]
  end.
Proof.
  destruct p.
  unfold Bringup.wifi_comes_up, Bringup.nvs_comes_up, Bringup.nvs_aborts,
    Bringup.nvs_calls.
  unfold Bringup.initWiFi, Bringup.fail_unless_ok, Bringup.ESP_ERROR_CHECK.
  cbn.
  repeat (first
    [ next_answer
    | solve [ split; [reflexivity|];
              first
                [ split; [|reflexivity]; intuition congruence
                | split; [intuition congruence|];
                  split; [intuition congruence|];
                  first [reflexivity|split_trace] ] ] ]).
Qed.

(** X17. [initWiFi] returns [true] exactly when the storage, the network
    stack and the radio all come up: the first flash initialisation answers
    [ESP_OK], or it reports a full or outdated partition and the second one,
    after the erase, answers [ESP_OK]; every other call answers [ESP_OK],
    where an event loop that already exists ([ESP_ERR_INVALID_STATE]) counts
    as success and the station interface must have been created. *)
Theorem initWiFi_succeeds_iff (p : Bringup.Platform) :
  Bringup.exit_of (Bringup.initWiFi p) = Bringup.Returned true <->
  Bringup.wifi_comes_up p.
Proof.
  destruct (initWiFi_outcome p) as [_ H].
  destruct (Bringup.exit_of (Bringup.initWiFi p)) as [[|]|].
  - split; [intros _; apply H|reflexivity].
  - split; [discriminate|intros Hup; exfalso; apply (proj1 H Hup)].
  - split; [discriminate|intros Hup; exfalso; apply (proj1 H Hup)].
Qed.

Lemma initWiFi_succeeds_iff_witness :
  Bringup.exit_of (Bringup.initWiFi Bringup.healthy) = Bringup.Returned true.
Proof.
  apply (proj2 (initWiFi_succeeds_iff Bringup.healthy)).
  unfold Bringup.wifi_comes_up, Bringup.nvs_comes_up. cbn.
  repeat split; auto.
Defined.

(** X18. [initWiFi] is fail-fast and makes its calls in one fixed order.  On
    success the calls are the flash calls followed by the nine network and
    radio calls, with no error line.  When it returns [false], the calls are
    an initial part of that same sequence, ending with the call that failed,
    followed by the one console line that names it; nothing is called after
    a failure. *)
Theorem initWiFi_stops_at_first_failure (p : Bringup.Platform) :
  (Bringup.exit_of (Bringup.initWiFi p) = Bringup.Returned true ->
   Bringup.calls_of (Bringup.initWiFi p) =
     Bringup.nvs_calls p ++ Bringup.wifi_calls) /\
  (Bringup.exit_of (Bringup.initWiFi p) = Bringup.Returned false ->
   exists pre c post,
     Bringup.calls_of (Bringup.initWiFi p) =
       pre ++ [c; Bringup.Serial_error c] /\
     pre ++ c :: post = Bringup.nvs_calls p ++ Bringup.wifi_calls).
Proof.
  destruct (initWiFi_outcome p) as [_ H].
  destruct (Bringup.exit_of (Bringup.initWiFi p)) as [[|]|].
  - split; [intros _; apply H|discriminate].
  - split; [discriminate|intros _; apply H].
  - split; discriminate.
Qed.

Lemma initWiFi_stops_at_first_failure_witness :
  exists pre c post,
    Bringup.calls_of
      (Bringup.initWiFi
         (Bringup.mkPlatform
            Bringup.ESP_OK Bringup.ESP_OK Bringup.ESP_OK true
            Bringup.ESP_OK Bringup.ESP_OK true Bringup.ESP_ERR_OTHER
            Bringup.ESP_OK Bringup.ESP_OK Bringup.ESP_OK Bringup.ESP_OK
            Bringup.ESP_OK true Bringup.ESP_OK Bringup.ESP_OK 25)) =
      pre ++ [c; Bringup.Serial_error c] /\
    pre ++ c :: post =
      Bringup.nvs_calls
        (Bringup.mkPlatform
           Bringup.ESP_OK Bringup.ESP_OK Bringup.ESP_OK true
           Bringup.ESP_OK Bringup.ESP_OK true Bringup.ESP_ERR_OTHER
           Bringup.ESP_OK Bringup.ESP_OK Bringup.ESP_OK Bringup.ESP_OK
           Bringup.ESP_OK true Bringup.ESP_OK Bringup.ESP_OK 25)
      ++ Bringup.wifi_calls.
Proof.
  apply (proj2 (initWiFi_stops_at_first_failure
                  (Bringup.mkPlatform
                     Bringup.ESP_OK Bringup.ESP_OK Bringup.ESP_OK true
                     Bringup.ESP_OK Bringup.ESP_OK true Bringup.ESP_ERR_OTHER
                     Bringup.ESP_OK Bringup.ESP_OK Bringup.ESP_OK
                     Bringup.ESP_OK Bringup.ESP_OK true Bringup.ESP_OK
                     Bringup.ESP_OK 25))).
  reflexivity.
Defined.

(** X19. The firmware is stopped inside [initWiFi] exactly when the first
    flash initialisation reports a full or outdated partition, the erase
    that follows fails, and a failed [ESP_ERROR_CHECK] aborts; the erase is
    then the last call made.  In particular a failed erase is never followed
    by a second initialisation attempt unless the check is compiled out. *)
Theorem initWiFi_aborts_iff (p : Bringup.Platform) :
  (Bringup.exit_of (Bringup.initWiFi p) = Bringup.Aborted <->
   Bringup.nvs_aborts p) /\
  (Bringup.nvs_aborts p ->
   Bringup.calls_of (Bringup.initWiFi p) =
     [Bringup.nvs_flash_init; Bringup.nvs_flash_erase]).
Proof.
  destruct (initWiFi_outcome p) as [_ H].
  destruct (Bringup.exit_of (Bringup.initWiFi p)) as [[|]|].
  - assert (N : ~ Bringup.nvs_aborts p).
    { destruct H as [(Hn & _) _]. unfold Bringup.nvs_aborts.
      unfold Bringup.nvs_comes_up in Hn.
      intros ([E|E] & Her & Ha); rewrite E in Hn;
        destruct Hn as [Hn|(_ & [He|He] & _)]; congruence. }
    split; [split; [discriminate|intros; contradiction]|intros; contradiction].
  - destruct H as (_ & N & _).
    split; [split; [discriminate|intros; contradiction]|intros; contradiction].
  - destruct H as (_ & Ha & Hc).
    split; [split; [intros _; exact Ha|reflexivity]|intros _; exact Hc].
Qed.

Lemma initWiFi_aborts_iff_witness :
  Bringup.calls_of
    (Bringup.initWiFi
       (Bringup.mkPlatform
          Bringup.ESP_ERR_NVS_NO_FREE_PAGES Bringup.ESP_ERR_OTHER
          Bringup.ESP_OK true
          Bringup.ESP_OK Bringup.ESP_OK true Bringup.ESP_OK
          Bringup.ESP_OK Bringup.ESP_OK Bringup.ESP_OK Bringup.ESP_OK
          Bringup.ESP_OK true Bringup.ESP_OK Bringup.ESP_OK 25)) =
    [Bringup.nvs_flash_init; Bringup.nvs_flash_erase].
Proof.
  apply (proj2 (initWiFi_aborts_iff
                  (Bringup.mkPlatform
                     Bringup.ESP_ERR_NVS_NO_FREE_PAGES Bringup.ESP_ERR_OTHER
                     Bringup.ESP_OK true
                     Bringup.ESP_OK Bringup.ESP_OK true Bringup.ESP_OK
                     Bringup.ESP_OK Bringup.ESP_OK Bringup.ESP_OK
                     Bringup.ESP_OK Bringup.ESP_OK true Bringup.ESP_OK
                     Bringup.ESP_OK 25))).
  unfold Bringup.nvs_aborts. cbn.
  split; [left; reflexivity|split; [discriminate|reflexivity]].
Defined.

Lemma setup_eq (p : Bringup.Platform) :
  Bringup.setup p =
  if Bringup.queue_created p then
    match Bringup.exit_of (Bringup.initWiFi p) with
    | Bringup.Aborted =>
        (inr Bringup.Aborted,
         Bringup.setup_prefix ++ Bringup.calls_of (Bringup.initWiFi p))
    | Bringup.Returned false =>
        (inr (Bringup.Returned tt),
         Bringup.setup_prefix ++ Bringup.calls_of (Bringup.initWiFi p)
         ++ [Bringup.Serial_wifi_failed])
    | Bringup.Returned true =>
        (inr (Bringup.Returned tt),
         Bringup.setup_prefix ++ Bringup.calls_of (Bringup.initWiFi p)
         ++ Bringup.esp_now_register_recv_cb
            :: match Bringup.esp_now_register_recv_cb_ret p with
               | Bringup.ESP_OK =>
                   Bringup.esp_now_add_peer Bringup.broadcast_peer
                   :: match Bringup.esp_now_add_peer_ret p with
                      | Bringup.ESP_OK =>
                          [Bringup.xTaskCreatePinnedToCore 4096
                             (Bringup.configMAX_PRIORITIES p - 1) 1;
                           Bringup.Serial_ready]
                      | _ =>
                          [Bringup.Serial_error
                             (Bringup.esp_now_add_peer Bringup.broadcast_peer)]
                      end
               | _ => [Bringup.Serial_error Bringup.esp_now_register_recv_cb]
               end)
    end
  else
    (inr (Bringup.Returned tt),
     Bringup.setup_prefix
     ++ [Bringup.Serial_error
           (Bringup.xQueueCreate (Z.of_nat QUEUE_LENGTH)
                                 Bringup.sizeof_QueueItem_t)]).
Proof.
  unfold Bringup.setup, Bringup.exit_of, Bringup.calls_of.
  destruct (Bringup.queue_created p); [|reflexivity].
  destruct (Bringup.initWiFi p) as [[[]|[[|]|]] t]; cbn.
  - destruct (Bringup.esp_now_register_recv_cb_ret p); cbn;
      rewrite ?app_nil_r; try reflexivity;
      destruct (Bringup.esp_now_add_peer_ret p); cbn;
      rewrite ?app_nil_r; reflexivity.
  - rewrite ?app_nil_r. reflexivity.
  - reflexivity.
Qed.

Lemma wifi_calls_filter (l : list Bringup.Call) :
  forallb Bringup.is_wifi_call l = true ->
  filter Bringup.is_task_create l = [] /\
  filter Bringup.is_register_cb l = [].
Proof.
  induction l as [|c l IH]; [split; reflexivity|].
  cbn [forallb]. intros H. apply andb_true_iff in H as [Hc Hl].
  destruct (IH Hl) as [I1 I2].
  destruct c; try discriminate Hc; cbn [filter Bringup.is_task_create
    Bringup.is_register_cb]; split; assumption.
Qed.

(** X20. [setup] starts the consumer task exactly when the queue was
    created, [initWiFi] succeeded, the receive callback was registered and
    the broadcast peer was added.  In that case it makes, in this order, the
    console and USB calls, the queue creation, the calls of [initWiFi], the
    callback registration, the addition of the broadcast peer (address
    FF:FF:FF:FF:FF:FF, channel 13, not encrypted) and the task creation;
    under any other answers no task is created. *)
Theorem setup_starts_task_iff (p : Bringup.Platform) :
  (Bringup.queue_created p = true ->
   Bringup.wifi_comes_up p ->
   Bringup.esp_now_register_recv_cb_ret p = Bringup.ESP_OK ->
   Bringup.esp_now_add_peer_ret p = Bringup.ESP_OK ->
   Bringup.setup p =
   (inr (Bringup.Returned tt),
    Bringup.setup_prefix ++ (Bringup.nvs_calls p ++ Bringup.wifi_calls)
    ++ [Bringup.esp_now_register_recv_cb;
        Bringup.esp_now_add_peer
          (mk_peer broadcastAddress WIFI_CHANNEL false WIFI_IF_STA);
        Bringup.xTaskCreatePinnedToCore 4096
          (Bringup.configMAX_PRIORITIES p - 1) 1;
        Bringup.Serial_ready])) /\
  (filter Bringup.is_task_create (Bringup.calls_of (Bringup.setup p)) <> [] ->
   Bringup.queue_created p = true /\
   Bringup.wifi_comes_up p /\
   Bringup.esp_now_register_recv_cb_ret p = Bringup.ESP_OK /\
   Bringup.esp_now_add_peer_ret p = Bringup.ESP_OK).
Proof.
  rewrite setup_eq.
  destruct (initWiFi_outcome p) as [Hk H].
  destruct (wifi_calls_filter _ Hk) as [Hft _].
  unfold Bringup.calls_of in Hft, H |- *.
  split.
  - intros Hq Hup Hr Ha. rewrite Hq, Hr, Ha.
    destruct (Bringup.exit_of (Bringup.initWiFi p)) as [[|]|].
    + destruct H as [_ Hc]. rewrite Hc. reflexivity.
    + exfalso. exact (proj1 H Hup).
    + exfalso. exact (proj1 H Hup).
  - destruct (Bringup.queue_created p);
      [|intros N; exfalso; apply N; reflexivity].
    destruct (Bringup.exit_of (Bringup.initWiFi p)) as [[|]|];
      cbn [snd]; rewrite !filter_app, Hft;
      cbn [app filter Bringup.setup_prefix Bringup.is_task_create].
    + destruct H as [Hup _].
      destruct (Bringup.esp_now_register_recv_cb_ret p);
        cbn [filter Bringup.is_task_create];
        try (intros N; exfalso; apply N; reflexivity).
      destruct (Bringup.esp_now_add_peer_ret p);
        cbn [filter Bringup.is_task_create];
        try (intros N; exfalso; apply N; reflexivity).
      intros _. split; [reflexivity|]. split; [exact Hup|].
      split; reflexivity.
    + intros N; exfalso; apply N; reflexivity.
    + intros N; exfalso; apply N; reflexivity.
Qed.

Lemma setup_starts_task_iff_witness :
  Bringup.setup Bringup.healthy =
  (inr (Bringup.Returned tt),
   Bringup.setup_prefix
   ++ (Bringup.nvs_calls Bringup.healthy ++ Bringup.wifi_calls)
   ++ [Bringup.esp_now_register_recv_cb;
       Bringup.esp_now_add_peer
         (mk_peer broadcastAddress WIFI_CHANNEL false WIFI_IF_STA);
       Bringup.xTaskCreatePinnedToCore 4096
         (Bringup.configMAX_PRIORITIES Bringup.healthy - 1) 1;
       Bringup.Serial_ready]).
Proof.
  apply (proj1 (setup_starts_task_iff Bringup.healthy)); try reflexivity.
  unfold Bringup.wifi_comes_up, Bringup.nvs_comes_up. cbn.
  repeat split; auto.
Defined.

(** X21. The receive callback is registered only once the queue exists and
    the radio is up: [setup] reaches the registration exactly when the queue
    was created and [initWiFi] returned [true], so [OnDataRecv] is never
    installed on a device without its queue. *)
Theorem callback_registered_iff (p : Bringup.Platform) :
  filter Bringup.is_register_cb (Bringup.calls_of (Bringup.setup p)) <> [] <->
  Bringup.queue_created p = true /\ Bringup.wifi_comes_up p.
Proof.
  rewrite setup_eq.
  destruct (initWiFi_outcome p) as [Hk H].
  destruct (wifi_calls_filter _ Hk) as [_ Hfr].
  unfold Bringup.calls_of in Hfr, H |- *.
  destruct (Bringup.queue_created p).
  - destruct (Bringup.exit_of (Bringup.initWiFi p)) as [[|]|];
      cbn [snd]; rewrite !filter_app, Hfr;
      cbn [app filter Bringup.setup_prefix Bringup.is_register_cb].
    + split; [intros _; split; [reflexivity|apply H]|discriminate].
    + split; [intros N; exfalso; apply N; reflexivity|].
      intros [_ Hup]. exfalso. exact (proj1 H Hup).
    + split; [intros N; exfalso; apply N; reflexivity|].
      intros [_ Hup]. exfalso. exact (proj1 H Hup).
  - split; [intros N; exfalso; apply N; reflexivity|].
    intros [Hq _]. discriminate Hq.
Qed.

Lemma callback_registered_iff_witness :
  filter Bringup.is_register_cb
    (Bringup.calls_of (Bringup.setup Bringup.healthy)) <> [].
Proof.
  apply (proj2 (callback_registered_iff Bringup.healthy)).
  unfold Bringup.wifi_comes_up, Bringup.nvs_comes_up. cbn.
  repeat split; auto.
Defined.
